(** * Content Manager Bot (server.js): the conversation engine and the read API

    A shallow embedding of [src/server.js].  The Telegram bot keeps one
    session object per user in the [userStates] map and walks it through the
    steps [title], [thumbnail], [movie_links] or [episode_count],
    [episode_title], [episode_link]; finished records are saved through the
    Mongoose model [Content].  The HTTP route [/api/content/:id] reads one
    record back.

    Conventions of the embedding:
    - a JavaScript string is a Rocq [string] holding its UTF-8 bytes;
    - [undefined] fields of the loosely typed session object are [None];
    - the two arrays of a session ([streamingLinks], [episodes]) live in a
      store of array cells and the session holds references to them, since
      the handler pushes to them in place;
    - answers of the outside world (Telegram file download, MongoDB) come
      with the event as an [Env] record;
    - updates are handled one at a time: a handler runs to its end before
      the next update is looked at. *)

From Stdlib Require Import ZArith Ascii String.
From stdpp Require Import gmap strings list fin_maps.

Local Open Scope Z_scope.

(** ** JavaScript numbers and strings *)

Module JS.

(** A Number value.  The bot only ever computes integral values, so a finite
    number is held as its mathematical value [z]; every such value is kept
    representable as an IEEE-754 double by [to_double].  Negative zero is
    identified with zero: the code only compares and increments numbers. *)
Inductive number :=
| NaN
| Fin (z : Z)
| PosInf
| NegInf.

#[global] Instance number_eq_dec : EqDecision number.
Proof. solve_decision. Defined.

(** Round an integer to the nearest double, ties to even (the [𝔽(x)] of
    ECMA-262).  Integers of magnitude at most 2^53 are exact. *)
Definition to_double (z : Z) : number :=
  let a := Z.abs z in
  if a <=? 2 ^ 53 then Fin z
  else
    let e := Z.log2 a - 52 in
    let q := a / 2 ^ e in
    let r := a mod 2 ^ e in
    let half := 2 ^ (e - 1) in
    let q' := if (half <? r) || ((r =? half) && Z.odd q) then q + 1 else q in
    let m := q' * 2 ^ e in
    if 2 ^ 1024 <=? m then (if z <? 0 then NegInf else PosInf)
    else Fin (Z.sgn z * m).

(** [ToNumber] of a possibly undefined numeric field: [undefined] is NaN. *)
Definition to_number (v : option number) : number :=
  match v with Some n => n | None => NaN end.

(** [a >= b] on Numbers: false as soon as one side is NaN. *)
Definition ge (a b : number) : bool :=
  match a, b with
  | NaN, _ | _, NaN => false
  | _, NegInf => true
  | PosInf, _ => true
  | NegInf, _ => false
  | Fin _, PosInf => false
  | Fin x, Fin y => y <=? x
  end.

(** [a + 1] on Numbers. *)
Definition succ (a : number) : number :=
  match a with
  | NaN => NaN
  | Fin x => to_double (x + 1)
  | PosInf => PosInf
  | NegInf => NegInf
  end.

(** The UTF-8 bytes of a string, as numbers. *)
Definition bytes (s : string) : list N :=
  map N_of_ascii (list_ascii_of_string s).

(** Truthiness of a string: every string but the empty one. *)
Definition truthy (s : string) : bool :=
  match s with EmptyString => false | String _ _ => true end.

Local Open Scope N_scope.

(** [StrWhiteSpaceChar] (WhiteSpace and LineTerminator of ECMA-262), by UTF-8
    encoding.  One byte: TAB, LF, VT, FF, CR, SP. *)
Definition ws1 (c : N) : bool :=
  ((9 <=? c) && (c <=? 13)) || (c =? 32).

(** Two bytes: U+00A0. *)
Definition ws2 (c1 c2 : N) : bool :=
  (c1 =? 194) && (c2 =? 160).

(** Three bytes: U+1680, U+2000..U+200A, U+2028, U+2029, U+202F, U+205F,
    U+3000, U+FEFF. *)
Definition ws3 (c1 c2 c3 : N) : bool :=
  ((c1 =? 225) && (c2 =? 154) && (c3 =? 128))
  || ((c1 =? 226) && (c2 =? 128)
      && (((128 <=? c3) && (c3 <=? 138)) || (c3 =? 168) || (c3 =? 169) || (c3 =? 175)))
  || ((c1 =? 226) && (c2 =? 129) && (c3 =? 159))
  || ((c1 =? 227) && (c2 =? 128) && (c3 =? 128))
  || ((c1 =? 239) && (c2 =? 187) && (c3 =? 191)).

(** [TrimString(s, start)]: drop the leading white space. *)
Fixpoint trim_start (l : list N) : list N :=
  match l with
  | [] => []
  | c1 :: r1 =>
    if ws1 c1 then trim_start r1
    else match r1 with
         | [] => l
         | c2 :: r2 =>
           if ws2 c1 c2 then trim_start r2
           else match r2 with
                | [] => l
                | c3 :: r3 => if ws3 c1 c2 c3 then trim_start r3 else l
                end
         end
  end.

(** The rest of the input is white space only. *)
Definition only_ws (l : list N) : bool :=
  match trim_start l with [] => true | _ :: _ => false end.

Definition is_dec_digit (c : N) : bool := (48 <=? c) && (c <=? 57).
Definition is_bin_digit (c : N) : bool := (c =? 48) || (c =? 49).
Definition is_oct_digit (c : N) : bool := (48 <=? c) && (c <=? 55).
Definition is_hex_digit (c : N) : bool :=
  is_dec_digit c || ((97 <=? c) && (c <=? 102)) || ((65 <=? c) && (c <=? 70)).

(** The longest prefix of digits, and what follows it. *)
Fixpoint span_digits (isd : N -> bool) (l : list N) : list N * list N :=
  match l with
  | c :: r =>
    if isd c then let '(ds, rest) := span_digits isd r in (c :: ds, rest)
    else ([], l)
  | [] => ([], [])
  end.

Definition nonempty {A} (l : list A) : bool :=
  match l with [] => false | _ :: _ => true end.

(** [ExponentPart_opt] followed by trailing white space up to the end. *)
Definition exponent_opt_then_end (l : list N) : bool :=
  match l with
  | c :: r =>
    if (c =? 101) || (c =? 69) then
      let r' := match r with
                | s :: r'' => if (s =? 43) || (s =? 45) then r'' else r
                | [] => r
                end in
      let '(ds, rest) := span_digits is_dec_digit r' in
      nonempty ds && only_ws rest
    else only_ws l
  | [] => true
  end.

(** [StrUnsignedDecimalLiteral], then white space up to the end. *)
Definition unsigned_decimal_then_end (l : list N) : bool :=
  let '(ds, rest) := span_digits is_dec_digit l in
  match rest with
  | c :: r =>
    if c =? 46 then
      let '(fs, rest') := span_digits is_dec_digit r in
      (nonempty ds || nonempty fs) && exponent_opt_then_end rest'
    else nonempty ds && exponent_opt_then_end rest
  | [] => nonempty ds
  end.

(** The literal [Infinity], then white space up to the end. *)
Definition infinity_then_end (l : list N) : bool :=
  match l with
  | 73 :: 110 :: 102 :: 105 :: 110 :: 105 :: 116 :: 121 :: rest => only_ws rest
  | _ => false
  end.

(** [NonDecimalIntegerLiteral] (0b, 0o, 0x prefixed), then white space. *)
Definition non_decimal_then_end (l : list N) : bool :=
  match l with
  | c0 :: p :: r =>
    if c0 =? 48 then
      let isd := if (p =? 98) || (p =? 66) then Some is_bin_digit
                 else if (p =? 111) || (p =? 79) then Some is_oct_digit
                 else if (p =? 120) || (p =? 88) then Some is_hex_digit
                 else None in
      match isd with
      | Some d => let '(ds, rest) := span_digits d r in nonempty ds && only_ws rest
      | None => false
      end
    else false
  | _ => false
  end.

(** [StrNumericLiteral StrWhiteSpace_opt] *)
Definition numeric_literal_then_end (l : list N) : bool :=
  non_decimal_then_end l
  || match l with
     | c :: r =>
       let u := if (c =? 43) || (c =? 45) then r else l in
       infinity_then_end u || unsigned_decimal_then_end u
     | [] => false
     end.

(** [isNaN(s)] for a string [s]: [ToNumber(s)] is NaN unless the whole
    string matches [StringNumericLiteral]; the empty and the all-blank
    string convert to 0. *)
Definition isNaN (s : string) : bool :=
  match trim_start (bytes s) with
  | [] => false
  | l => negb (numeric_literal_then_end l)
  end.

Definition digit_value (c : N) : Z :=
  if is_dec_digit c then Z.of_N (c - 48)
  else if (97 <=? c) && (c <=? 102) then Z.of_N (c - 87)
  else Z.of_N (c - 55).

(** The mathematical value of a digit string in radix [R]. *)
Definition digits_value (R : Z) (ds : list N) : Z :=
  fold_left (fun acc c => acc * R + digit_value c)%Z ds 0%Z.

(** [parseInt(s)] with no radix argument: leading white space is dropped, a
    sign is read, a [0x]/[0X] prefix selects radix 16, and the longest
    prefix of digits is the value; no digit at all gives NaN.  The value is
    rounded exactly (ECMA-262 also allows an implementation to read the
    decimal digits after the 20th as zeros). *)
Definition parseInt (s : string) : number :=
  let S0 := trim_start (bytes s) in
  let '(neg, S1) := match S0 with
                    | c :: r => if c =? 45 then (true, r)
                                else if c =? 43 then (false, r)
                                else (false, S0)
                    | [] => (false, S0)
                    end in
  let '(R, isd, S2) := match S1 with
                       | c0 :: x :: r =>
                         if (c0 =? 48) && ((x =? 120) || (x =? 88))
                         then (16%Z, is_hex_digit, r)
                         else (10%Z, is_dec_digit, S1)
                       | _ => (10%Z, is_dec_digit, S1)
                       end in
  let '(ds, _) := span_digits isd S2 in
  match ds with
  | [] => NaN
  | _ => let v := digits_value R ds in
         to_double (if neg then (- v)%Z else v)
  end.

End JS.

(** ** Data model *)

(** [type] of a session and of a record: the enum of [ContentSchema]. *)
Inductive content_type := movie | webseries.

(** The values the code gives to [state.step]. *)
Inductive Step :=
| step_title
| step_thumbnail
| step_movie_links
| step_episode_count
| step_episode_title
| step_episode_link.

#[global] Instance content_type_eq_dec : EqDecision content_type.
Proof. solve_decision. Defined.
#[global] Instance Step_eq_dec : EqDecision Step.
Proof. solve_decision. Defined.

(** A reference to an array cell. *)
Abbreviation loc := positive.

(** An entry of the [episodes] array, as pushed in case ['episode_link']. *)
Record Episode := {
  episodeNumber : option JS.number;
  ep_title : option string;
  streamingLink : string
}.

(** The session object kept in [userStates]. *)
Record State := {
  type : content_type;
  step : Step;
  title : option string;
  thumbnail : option string;
  streamingLinks : option loc;
  episodes : option loc;
  episodeCount : option JS.number;
  currentEpisode : option JS.number;
  currentEpisodeTitle : option string
}.

(** A [Content] document.  [createdAt] is not modelled. *)
Record ContentDoc := {
  doc_type : content_type;
  doc_title : option string;
  doc_thumbnail : option string;
  doc_streamingLinks : list string;
  doc_episodes : list Episode
}.

(** The value of an [ObjectId]. *)
Abbreviation ObjectId := N.

(** The memory of the process and the [contents] collection of MongoDB. *)
Record World := {
  userStates : gmap Z State;
  linkArrays : gmap loc (list string);
  episodeArrays : gmap loc (list Episode);
  contents : gmap ObjectId ContentDoc
}.

Definition initial_world : World :=
  {| userStates := ∅; linkArrays := ∅; episodeArrays := ∅; contents := ∅ |}.

(** An incoming Telegram message: its [text], and the [file_id]s of its
    [photo] sizes. *)
Record Msg := {
  text : option string;
  photo : option (list string)
}.

Inductive Update :=
| MessageUpdate (from : Z) (message : Msg)
| CallbackQueryUpdate (from : Z) (data : string).

(** What the outside world answers while one update is handled. *)
Record Env := {
  (** [ctx.telegram.getFile] then [downloadThumbnail]: the [filename]
      ([thumbnail_<now><ext>]) the photo was written under, or [None] when
      one of the two throws *)
  download : option string;
  (** the database: [None] when it answers, [Some message] when the
      operation rejects with that message *)
  db_error : option string
}.

(** The texts passed to [ctx.reply], one constructor per call site. *)
Inductive Reply :=
| Welcome                 (* 'Welcome to Content Manager Bot! Choose an option:' *)
| AskMovieTitle           (* 'Please send the movie title:' *)
| AskSeriesTitle          (* 'Please send the web series title:' *)
| NoContent               (* 'No content available yet.' *)
| ContentListing          (* the '📋 Recent Content:' listing *)
| ErrFetching             (* 'Error fetching content.' *)
| NoContentToEdit         (* 'No content available to edit.' *)
| SelectContent           (* 'Select content to edit:' *)
| ErrFetchingForEdit      (* 'Error fetching content for editing.' *)
| AskThumbnail            (* 'Great! Now please send the thumbnail image:' *)
| AskLinks                (* 'Thumbnail received! Now please send streaming links ...' *)
| AskEpisodeCount         (* 'Thumbnail received! How many episodes does this web series have?' *)
| ErrDownload             (* 'Error downloading thumbnail. Please try again.' *)
| AskImage                (* 'Please send an image for the thumbnail.' *)
| NeedOneLink             (* 'Please add at least one streaming link before finishing.' *)
| MovieAdded              (* '✅ Movie added successfully!' *)
| ErrSaveMovie            (* 'Error saving movie. Please try again.' *)
| LinkAdded (n : nat)     (* 'Link added! n link(s) so far. ...' *)
| AskFirstEpisodeTitle    (* 'Starting with episode 1. Please send the title for episode 1:' *)
| AskValidNumber          (* 'Please send a valid number for episode count.' *)
| AskEpisodeLink (n : option JS.number)  (* 'Now please send the streaming link for episode n:' *)
| SeriesAdded (t : option string) (n : nat) (* '✅ Web series "t" added successfully with n episodes!' *)
| ErrSaveSeries           (* 'Error saving web series. Please try again.' *)
| AskEpisodeTitle (n : JS.number)  (* 'Now for episode n. Please send the title:' *)
| AskValidLink            (* 'Please send a valid streaming link.' *)
| ContentNotFound         (* 'Content not found.' *)
| EditMenu (c : ContentDoc) (* 'Editing: title ↵ What would you like to edit?' *)
| ErrLoading.             (* 'Error loading content for editing.' *)

(** How a handler ends: normally, with the new world and the replies it
    sent, or with an exception that nothing catches. *)
Inductive Outcome :=
| Done (w : World) (replies : list Reply)
| Throws.

(** ** The session map and the array store *)

(** [{ ...state, step: s }] and the like *)
Definition with_step (s : Step) (st : State) : State :=
  {| type := type st; step := s; title := title st; thumbnail := thumbnail st;
     streamingLinks := streamingLinks st; episodes := episodes st;
     episodeCount := episodeCount st; currentEpisode := currentEpisode st;
     currentEpisodeTitle := currentEpisodeTitle st |}.

Definition with_title (t : string) (st : State) : State :=
  {| type := type st; step := step st; title := Some t; thumbnail := thumbnail st;
     streamingLinks := streamingLinks st; episodes := episodes st;
     episodeCount := episodeCount st; currentEpisode := currentEpisode st;
     currentEpisodeTitle := currentEpisodeTitle st |}.

Definition with_thumbnail (p : string) (st : State) : State :=
  {| type := type st; step := step st; title := title st; thumbnail := Some p;
     streamingLinks := streamingLinks st; episodes := episodes st;
     episodeCount := episodeCount st; currentEpisode := currentEpisode st;
     currentEpisodeTitle := currentEpisodeTitle st |}.

Definition with_streamingLinks (l : loc) (st : State) : State :=
  {| type := type st; step := step st; title := title st; thumbnail := thumbnail st;
     streamingLinks := Some l; episodes := episodes st;
     episodeCount := episodeCount st; currentEpisode := currentEpisode st;
     currentEpisodeTitle := currentEpisodeTitle st |}.

Definition with_episodes (l : loc) (st : State) : State :=
  {| type := type st; step := step st; title := title st; thumbnail := thumbnail st;
     streamingLinks := streamingLinks st; episodes := Some l;
     episodeCount := episodeCount st; currentEpisode := currentEpisode st;
     currentEpisodeTitle := currentEpisodeTitle st |}.

Definition with_episodeCount (n : JS.number) (st : State) : State :=
  {| type := type st; step := step st; title := title st; thumbnail := thumbnail st;
     streamingLinks := streamingLinks st; episodes := episodes st;
     episodeCount := Some n; currentEpisode := currentEpisode st;
     currentEpisodeTitle := currentEpisodeTitle st |}.

Definition with_currentEpisode (n : JS.number) (st : State) : State :=
  {| type := type st; step := step st; title := title st; thumbnail := thumbnail st;
     streamingLinks := streamingLinks st; episodes := episodes st;
     episodeCount := episodeCount st; currentEpisode := Some n;
     currentEpisodeTitle := currentEpisodeTitle st |}.

Definition with_currentEpisodeTitle (t : string) (st : State) : State :=
  {| type := type st; step := step st; title := title st; thumbnail := thumbnail st;
     streamingLinks := streamingLinks st; episodes := episodes st;
     episodeCount := episodeCount st; currentEpisode := currentEpisode st;
     currentEpisodeTitle := Some t |}.

(** [userStates.set(userId, st)] *)
Definition set_state (userId : Z) (st : State) (w : World) : World :=
  {| userStates := <[userId := st]> (userStates w);
     linkArrays := linkArrays w; episodeArrays := episodeArrays w;
     contents := contents w |}.

(** [userStates.delete(userId)] *)
Definition delete_state (userId : Z) (w : World) : World :=
  {| userStates := delete userId (userStates w);
     linkArrays := linkArrays w; episodeArrays := episodeArrays w;
     contents := contents w |}.

Definition set_linkArrays (h : gmap loc (list string)) (w : World) : World :=
  {| userStates := userStates w; linkArrays := h;
     episodeArrays := episodeArrays w; contents := contents w |}.

Definition set_episodeArrays (h : gmap loc (list Episode)) (w : World) : World :=
  {| userStates := userStates w; linkArrays := linkArrays w;
     episodeArrays := h; contents := contents w |}.

Definition set_contents (c : gmap ObjectId ContentDoc) (w : World) : World :=
  {| userStates := userStates w; linkArrays := linkArrays w;
     episodeArrays := episodeArrays w; contents := c |}.

(** The array a reference points to.  A reference always points into the
    store in JavaScript; a cell that is not there reads as empty. *)
Definition deref {A} (h : gmap loc (list A)) (l : loc) : list A :=
  default [] (h !! l).

(** [[]]: a new, empty array *)
Definition alloc {A} (h : gmap loc (list A)) : loc * gmap loc (list A) :=
  let l := fresh (dom h) in (l, <[l := []]> h).

(** [arr.push(x)] *)
Definition push {A} (l : loc) (x : A) (h : gmap loc (list A)) : gmap loc (list A) :=
  <[l := deref h l ++ [x]]> h.

(** [ref || []]: the array of the field, or a new one when the field is
    undefined *)
Definition or_new {A} (ref : option loc) (h : gmap loc (list A)) : loc * gmap loc (list A) :=
  match ref with
  | Some l => (l, h)
  | None => alloc h
  end.

(** ** The Content model (Mongoose) *)

(** A [required: true] String path validates when it is defined and not
    the empty string. *)
Definition required (v : option string) : bool :=
  match v with
  | Some s => JS.truthy s
  | None => false
  end.

(** [await content.save()]: the document is validated against
    [ContentSchema] ([title] and [thumbnail] are required; [type] is in the
    enum by typing), then inserted under a new [_id].  [None] when the
    promise rejects. *)
Definition save (env : Env) (doc : ContentDoc) (c : gmap ObjectId ContentDoc)
  : option (gmap ObjectId ContentDoc) :=
  if required (doc_title doc) && required (doc_thumbnail doc) then
    match db_error env with
    | None => Some (<[fresh (dom c) := doc]> c)
    | Some _ => None
    end
  else None.

Inductive Error :=
| CastError (value : string)     (* 'Cast to ObjectId failed for value ...' *)
| DbError (message : string).

(** The cast of a string to an [ObjectId]: 24 hexadecimal digits. *)
Definition cast_ObjectId (s : string) : option ObjectId :=
  let bs := JS.bytes s in
  if (length bs =? 24)%nat && forallb JS.is_hex_digit bs
  then Some (Z.to_N (JS.digits_value 16 bs))
  else None.

(** [await Content.findById(id)]: rejects when [id] does not cast or the
    database fails, and resolves to the document or to [null]. *)
Definition findById (env : Env) (id : string) (c : gmap ObjectId ContentDoc)
  : Error + option ContentDoc :=
  match cast_ObjectId id with
  | None => inl (CastError id)
  | Some oid =>
    match db_error env with
    | Some m => inl (DbError m)
    | None => inr (c !! oid)
    end
  end.

(** ** The bot handlers *)

(** The text of a message when [if (message.text)] holds. *)
Definition truthy_text (m : Msg) : option string :=
  match text m with
  | Some t => if JS.truthy t then Some t else None
  | None => None
  end.

(** [bot.hears('🎬 Add Movie', ...)] *)
Definition hears_add_movie (userId : Z) (w : World) : Outcome :=
  let '(l, h) := alloc (linkArrays w) in
  Done (set_state userId
          {| type := movie; step := step_title; title := None; thumbnail := None;
             streamingLinks := Some l; episodes := None; episodeCount := None;
             currentEpisode := None; currentEpisodeTitle := None |}
          (set_linkArrays h w))
       [AskMovieTitle].

(** [bot.hears('📺 Add Web Series', ...)] *)
Definition hears_add_series (userId : Z) (w : World) : Outcome :=
  let '(l, h) := alloc (episodeArrays w) in
  Done (set_state userId
          {| type := webseries; step := step_title; title := None; thumbnail := None;
             streamingLinks := None; episodes := Some l; episodeCount := None;
             currentEpisode := None; currentEpisodeTitle := None |}
          (set_episodeArrays h w))
       [AskSeriesTitle].

(** [bot.hears('📋 View Content', ...)] *)
Definition hears_view_content (env : Env) (w : World) : Outcome :=
  match db_error env with
  | Some _ => Done w [ErrFetching]
  | None => if decide (contents w = ∅) then Done w [NoContent]
            else Done w [ContentListing]
  end.

(** [bot.hears('✏️ Edit Content', ...)] *)
Definition hears_edit_content (env : Env) (w : World) : Outcome :=
  match db_error env with
  | Some _ => Done w [ErrFetchingForEdit]
  | None => if decide (contents w = ∅) then Done w [NoContentToEdit]
            else Done w [SelectContent]
  end.

(** [bot.on('message', ...)], case ['title'] *)
Definition case_title (userId : Z) (state : State) (message : Msg) (w : World)
  : Outcome :=
  match truthy_text message with
  | Some t =>
    Done (set_state userId (with_step step_thumbnail (with_title t state)) w)
         [AskThumbnail]
  | None => Done w []
  end.

(** case ['thumbnail'] *)
Definition case_thumbnail (env : Env) (userId : Z) (state : State)
    (message : Msg) (w : World) : Outcome :=
  match photo message with
  | Some sizes =>
    (* try { ... } catch (error) { reply('Error downloading ...') } *)
    match last sizes, download env with
    | Some _, Some filename =>
      let thumbnailPath := ("/thumbnails/" ++ filename)%string in
      Done (set_state userId
              (with_step (match type state with
                          | movie => step_movie_links
                          | webseries => step_episode_count
                          end)
                 (with_thumbnail thumbnailPath state)) w)
           [match type state with movie => AskLinks | webseries => AskEpisodeCount end]
    | _, _ => Done w [ErrDownload]
    end
  | None => Done w [AskImage]
  end.

(** case ['movie_links'] *)
Definition case_movie_links (env : Env) (userId : Z) (state : State)
    (message : Msg) (w : World) : Outcome :=
  if decide (text message = Some "/done"%string) then
    match streamingLinks state with
    | None => Throws  (* state.streamingLinks.length of undefined *)
    | Some l =>
      let links := deref (linkArrays w) l in
      if (length links =? 0)%nat then Done w [NeedOneLink]
      else
        match save env {| doc_type := type state; doc_title := title state;
                          doc_thumbnail := thumbnail state;
                          doc_streamingLinks := links; doc_episodes := [] |}
                   (contents w) with
        | Some c => Done (delete_state userId (set_contents c w)) [MovieAdded]
        | None => Done w [ErrSaveMovie]
        end
    end
  else
    match truthy_text message with
    | Some t =>
      let '(l, h) := or_new (streamingLinks state) (linkArrays w) in
      let h' := push l t h in
      Done (set_state userId (with_streamingLinks l state) (set_linkArrays h' w))
           [LinkAdded (length (deref h' l))]
    | None => Done w []
    end.

(** case ['episode_count'] *)
Definition case_episode_count (userId : Z) (state : State) (message : Msg)
    (w : World) : Outcome :=
  match truthy_text message with
  | Some t =>
    if negb (JS.isNaN t) then
      let episodeCount := JS.parseInt t in
      Done (set_state userId
              (with_step step_episode_title
                 (with_currentEpisode (JS.Fin 1)
                    (with_episodeCount episodeCount state))) w)
           [AskFirstEpisodeTitle]
    else Done w [AskValidNumber]
  | None => Done w [AskValidNumber]
  end.

(** case ['episode_title'] *)
Definition case_episode_title (userId : Z) (state : State) (message : Msg)
    (w : World) : Outcome :=
  match truthy_text message with
  | Some t =>
    Done (set_state userId
            (with_step step_episode_link (with_currentEpisodeTitle t state)) w)
         [AskEpisodeLink (currentEpisode state)]
  | None => Done w []
  end.

(** case ['episode_link'] *)
Definition case_episode_link (env : Env) (userId : Z) (state : State)
    (message : Msg) (w : World) : Outcome :=
  match truthy_text message with
  | Some t =>
    let '(l, h) := or_new (episodes state) (episodeArrays w) in
    let h' := push l {| episodeNumber := currentEpisode state;
                        ep_title := currentEpisodeTitle state;
                        streamingLink := t |} h in
    let w' := set_episodeArrays h' w in
    if JS.ge (JS.to_number (currentEpisode state))
             (JS.to_number (episodeCount state)) then
      (* All episodes added *)
      match save env {| doc_type := type state; doc_title := title state;
                        doc_thumbnail := thumbnail state;
                        doc_streamingLinks := []; doc_episodes := deref h' l |}
                 (contents w') with
      | Some c =>
        Done (delete_state userId (set_contents c w'))
             [SeriesAdded (title state) (length (deref h' l))]
      | None => Done w' [ErrSaveSeries]
      end
    else
      (* Move to next episode *)
      let nextEpisode := JS.succ (JS.to_number (currentEpisode state)) in
      Done (set_state userId
              (with_step step_episode_title
                 (with_currentEpisode nextEpisode (with_episodes l state))) w')
           [AskEpisodeTitle nextEpisode]
  | None => Done w [AskValidLink]
  end.

(** [bot.on('message', async (ctx) => ...)] *)
Definition on_message (env : Env) (userId : Z) (message : Msg) (w : World)
  : Outcome :=
  match userStates w !! userId with
  | None => Done w []    (* if (!state) return; *)
  | Some state =>
    match step state with
    | step_title => case_title userId state message w
    | step_thumbnail => case_thumbnail env userId state message w
    | step_movie_links => case_movie_links env userId state message w
    | step_episode_count => case_episode_count userId state message w
    | step_episode_title => case_episode_title userId state message w
    | step_episode_link => case_episode_link env userId state message w
    end
  end.

(** [data.startsWith('edit_')], with what follows the prefix *)
Definition after_edit_prefix (data : string) : option string :=
  match data with
  | String "e" (String "d" (String "i" (String "t" (String "_" rest)))) => Some rest
  | _ => None
  end.

(** [bot.on('callback_query', ...)] *)
Definition on_callback_query (env : Env) (data : string) (w : World) : Outcome :=
  match after_edit_prefix data with
  | Some contentId =>
    match findById env contentId (contents w) with
    | inl _ => Done w [ErrLoading]
    | inr None => Done w [ContentNotFound]
    | inr (Some content) => Done w [EditMenu content]
    end
  | None => Done w []
  end.

(** ** Dispatch

    Telegraf runs the handlers in the order of their registration and a
    handler that matches does not pass the update on: [bot.start] takes the
    [/start] command, each [bot.hears] the message whose text is its
    trigger, and [bot.on('message')] what is left. *)

(** The start command, read off the text: [/start] alone, or followed by a
    space and a payload.  Telegraf decides on the [bot_command] entity with
    which the message begins, so it also takes a command that names its
    addressee, [/start@name], when the name is the bot's own.  That name is
    not in the source, and such a text is ordinary text here; the properties
    on free text keep away from it, their texts do not begin with [/] (see
    [plain_text]). *)
Definition is_start_command (m : Msg) : bool :=
  match text m with
  | Some t => bool_decide (t = "/start"%string) || String.prefix "/start " t
  | None => false
  end.

Definition hears (trigger : string) (m : Msg) : bool :=
  bool_decide (text m = Some trigger).

Definition handle_update (env : Env) (u : Update) (w : World) : Outcome :=
  match u with
  | MessageUpdate userId m =>
    if is_start_command m then Done w [Welcome]
    else if hears "🎬 Add Movie" m then hears_add_movie userId w
    else if hears "📺 Add Web Series" m then hears_add_series userId w
    else if hears "📋 View Content" m then hears_view_content env w
    else if hears "✏️ Edit Content" m then hears_edit_content env w
    else on_message env userId m w
  | CallbackQueryUpdate _ data => on_callback_query env data w
  end.

(** A run of the bot over a sequence of updates, each with the answers of
    its environment; [None] once a handler has thrown. *)
Fixpoint run (w : World) (evs : list (Env * Update)) : option World :=
  match evs with
  | [] => Some w
  | (env, u) :: evs' =>
    match handle_update env u w with
    | Done w' _ => run w' evs'
    | Throws => None
    end
  end.

(** ** The read API *)

Inductive Json :=
| JNull
| JDoc (c : ContentDoc)
| JErrorBody (e : Error).     (* { error: error.message } *)

Record Response := { status : Z; body : Json }.

(** [app.get('/api/content/:id', ...)] *)
Definition get_content_by_id (env : Env) (id : string) (w : World) : Response :=
  match findById env id (contents w) with
  | inr (Some content) => {| status := 200; body := JDoc content |}
  | inr None => {| status := 200; body := JNull |}
  | inl error => {| status := 500; body := JErrorBody error |}
  end.

(** ** Vocabulary of the properties *)

(** The user an update comes from. *)
Definition sender (u : Update) : Z :=
  match u with
  | MessageUpdate userId _ => userId
  | CallbackQueryUpdate userId _ => userId
  end.

(** The step of a user's session, [None] without a session. *)
Definition step_of (w : World) (userId : Z) : option Step :=
  step <$> (userStates w !! userId).

(** The message is one of the two menu entries that open a session. *)
Definition opens_session (m : Msg) : bool :=
  negb (is_start_command m)
  && (hears "🎬 Add Movie" m || hears "📺 Add Web Series" m).

(** The dispatch leaves the message to [bot.on('message')]: it is not read
    as the start command and it is no menu entry. *)
Definition reaches_on_message (m : Msg) : bool :=
  negb (is_start_command m)
  && negb (hears "🎬 Add Movie" m) && negb (hears "📺 Add Web Series" m)
  && negb (hears "📋 View Content" m) && negb (hears "✏️ Edit Content" m).

(** The message carries no bot command: it has no text, or its text does
    not begin with [/]. *)
Definition no_command (m : Msg) : bool :=
  match text m with
  | Some t => negb (String.prefix "/" t)
  | None => true
  end.

(** The update is a menu entry by which [userId] opens a new session. *)
Definition restarts (userId : Z) (u : Update) : bool :=
  match u with
  | MessageUpdate v m => bool_decide (v = userId) && opens_session m
  | CallbackQueryUpdate _ _ => false
  end.

(** The update comes from [userId] and does not open a new session. *)
Definition continues (userId : Z) (e : Env * Update) : bool :=
  bool_decide (sender e.2 = userId) && negb (restarts userId e.2).

(** The session is inside the episode loop. *)
Definition in_episode_loop (st : State) : bool :=
  match step st with
  | step_episode_title | step_episode_link => true
  | _ => false
  end.

(** The rows of the transition table of the conversation engine, on the step
    of one user ([None]: no session). *)
Definition table_edge (a b : option Step) : bool :=
  match a, b with
  | None, Some step_title => true
  | Some step_title, Some step_thumbnail => true
  | Some step_thumbnail, Some step_movie_links => true
  | Some step_thumbnail, Some step_episode_count => true
  | Some step_movie_links, None => true
  | Some step_episode_count, Some step_episode_title => true
  | Some step_episode_title, Some step_episode_link => true
  | Some step_episode_link, Some step_episode_title => true
  | Some step_episode_link, None => true
  | _, _ => false
  end.

(** The steps that follow [thumbnail]. *)
Definition after_thumbnail (a : option Step) : bool :=
  match a with
  | Some step_movie_links | Some step_episode_count
  | Some step_episode_title | Some step_episode_link => true
  | _ => false
  end.

(** The acceptance condition of [episode_count] in the words of the
    specification: the text parses as a positive integer. *)
Definition parses_as_positive_integer (t : string) : Prop :=
  ∃ n : Z, 0 < n ∧ JS.parseInt t = JS.Fin n.

(** The episode numbers [1..k], as stored in the entries. *)
Definition numbered (eps : list Episode) (k : Z) : Prop :=
  episodeNumber <$> eps = (λ i, Some (JS.Fin i)) <$> seqZ 1 k.

(** What the answers to a user tell about the session that the user has
    open: how many episode titles and how many episode links it has taken
    since it was opened, and whether an insert of the series has failed. *)
Record LoopLog := { titles : Z; links : Z; insert_failed : bool }.

Definition new_log : LoopLog :=
  {| titles := 0; links := 0; insert_failed := false |}.

(** The answer of the text branch of case ['episode_title']. *)
Definition title_taken (rs : list Reply) : bool :=
  match rs with
  | [AskEpisodeLink _] => true
  | _ => false
  end.

(** The answers of the text branch of case ['episode_link'], which pushes
    the episode: the next title is asked for, the series is saved, or the
    insert has failed. *)
Definition link_taken (rs : list Reply) : bool :=
  match rs with
  | [AskEpisodeTitle _] | [SeriesAdded _ _] | [ErrSaveSeries] => true
  | _ => false
  end.

(** The answer of the [catch] around [content.save()] in case
    ['episode_link']. *)
Definition insert_error (rs : list Reply) : bool :=
  match rs with
  | [ErrSaveSeries] => true
  | _ => false
  end.

(** The log after the answer [rs] to an update of the session. *)
Definition count_answer (rs : list Reply) (g : LoopLog) : LoopLog :=
  {| titles := if title_taken rs then titles g + 1 else titles g;
     links := if link_taken rs then links g + 1 else links g;
     insert_failed := insert_failed g || insert_error rs |}.

(** The log of [userId] after an update that was answered by [rs]: a menu
    entry of the user opens a new session and a new log, another update of
    the user is counted, the updates of other users are not. *)
Definition log_step (userId : Z) (u : Update) (rs : list Reply) (g : LoopLog)
  : LoopLog :=
  if restarts userId u then new_log
  else if bool_decide (sender u = userId) then count_answer rs g
  else g.

(** The log of [userId] along a run. *)
Fixpoint loop_log (userId : Z) (g : LoopLog) (w : World)
    (evs : list (Env * Update)) : LoopLog :=
  match evs with
  | [] => g
  | (env, u) :: evs' =>
    match handle_update env u w with
    | Done w' rs => loop_log userId (log_step userId u rs g) w' evs'
    | Throws => g
    end
  end.

(** ** Invariants of the session map *)

(** The shape of a session that the handlers keep: a movie session owns a
    links array and stays on the movie path, a series session never enters
    [movie_links]. *)
Definition state_ok (st : State) : Prop :=
  match type st with
  | movie =>
    is_Some (streamingLinks st) ∧ episodes st = None ∧ episodeCount st = None
    ∧ (step st = step_title ∨ step st = step_thumbnail ∨ step st = step_movie_links)
  | webseries => step st ≠ step_movie_links ∧ is_Some (episodes st)
  end.

Definition movie_doc_ok (d : ContentDoc) : Prop :=
  doc_type d = movie → doc_streamingLinks d ≠ [].

Definition world_ok (w : World) : Prop :=
  (∀ u st, userStates w !! u = Some st → state_ok st)
  ∧ (∀ id d, contents w !! id = Some d → movie_doc_ok d).

(** Progress of the episode loop, for a session whose inserts have not
    failed: inside the loop the counter is a positive integer that a double
    holds exactly and, for a count the loop can reach, the array holds the
    episodes [1 .. currentEpisode - 1], one for each link taken, and the
    titles taken are as many, with one more while the link of the current
    episode is awaited; before the loop the array is empty and nothing has
    been taken. *)
Definition loop_progress (st : State) (arr : list Episode) (g : LoopLog)
  : Prop :=
  match step st with
  | step_episode_title =>
    ∃ c, currentEpisode st = Some (JS.Fin c) ∧ 1 ≤ c ≤ 2 ^ 53
         ∧ ∀ n, episodeCount st = Some (JS.Fin n) → 1 ≤ n ≤ 2 ^ 53 →
                c ≤ n ∧ numbered arr (c - 1)
                ∧ titles g = c - 1 ∧ links g = c - 1
  | step_episode_link =>
    ∃ c, currentEpisode st = Some (JS.Fin c) ∧ 1 ≤ c ≤ 2 ^ 53
         ∧ ∀ n, episodeCount st = Some (JS.Fin n) → 1 ≤ n ≤ 2 ^ 53 →
                c ≤ n ∧ numbered arr (c - 1)
                ∧ titles g = c ∧ links g = c - 1
  | _ => arr = [] ∧ titles g = 0 ∧ links g = 0
  end.

(** The log of [userId] agrees with the session of [userId]. *)
Definition log_ok (userId : Z) (w : World) (g : LoopLog) : Prop :=
  insert_failed g = false →
  ∀ st l, userStates w !! userId = Some st → episodes st = Some l →
          loop_progress st (deref (episodeArrays w) l) g.

(** The document that the handler is about to save, when the message makes
    the session reach a persist point: the terminator in [movie_links] with
    at least one link collected, or the link of the last episode in
    [episode_link]. *)
Definition persist_point (st : State) (m : Msg) (w : World) : option ContentDoc :=
  match step st with
  | step_movie_links =>
    match streamingLinks st with
    | Some l =>
      if bool_decide (text m = Some "/done"%string)
         && negb (length (deref (linkArrays w) l) =? 0)%nat
      then Some {| doc_type := type st; doc_title := title st;
                   doc_thumbnail := thumbnail st;
                   doc_streamingLinks := deref (linkArrays w) l;
                   doc_episodes := [] |}
      else None
    | None => None
    end
  | step_episode_link =>
    match truthy_text m with
    | Some t =>
      if JS.ge (JS.to_number (currentEpisode st)) (JS.to_number (episodeCount st))
      then Some {| doc_type := type st; doc_title := title st;
                   doc_thumbnail := thumbnail st; doc_streamingLinks := [];
                   doc_episodes :=
                     match episodes st with
                     | Some l => deref (episodeArrays w) l
                     | None => []
                     end
                     ++ [{| episodeNumber := currentEpisode st;
                            ep_title := currentEpisodeTitle st;
                            streamingLink := t |}] |}
      else None
    | None => None
    end
  | _ => None
  end.

(** ** Example conversations *)

Definition answers : Env :=
  {| download := Some "thumbnail_1.jpg"%string; db_error := None |}.

Definition db_down : Env :=
  {| download := Some "thumbnail_1.jpg"%string;
     db_error := Some "connection refused"%string |}.

Definition text_message (s : string) : Msg := {| text := Some s; photo := None |}.

Definition photo_message : Msg :=
  {| text := None; photo := Some ["small"%string; "large"%string] |}.

Definition says (userId : Z) (s : string) : Env * Update :=
  (answers, MessageUpdate userId (text_message s)).

Definition sends_photo (userId : Z) : Env * Update :=
  (answers, MessageUpdate userId photo_message).

(** The world a run from the initial world ends in. *)
Definition world_after (evs : list (Env * Update)) : World :=
  default initial_world (run initial_world evs).

(** User 7 opens the movie form. *)
Definition movie_opened : list (Env * Update) := [says 7 "🎬 Add Movie"].

(** User 7 has given title and thumbnail of a movie. *)
Definition movie_to_links : list (Env * Update) :=
  [says 7 "🎬 Add Movie"; says 7 "Test"; sends_photo 7].

(** User 7 has given title and thumbnail of a series. *)
Definition series_to_count : list (Env * Update) :=
  [says 7 "📺 Add Web Series"; says 7 "S1"; sends_photo 7].

(** User 7 has sent one link of a movie. *)
Definition movie_one_link : list (Env * Update) :=
  movie_to_links ++ [says 7 "http://a"].

(** The whole movie conversation. *)
Definition movie_done : list (Env * Update) :=
  movie_one_link ++ [says 7 "/done"].

(** The session of user 7 after [movie_one_link]. *)
Definition movie_at_links : State :=
  {| type := movie; step := step_movie_links; title := Some "Test"%string;
     thumbnail := Some "/thumbnails/thumbnail_1.jpg"%string;
     streamingLinks := Some 1%positive; episodes := None; episodeCount := None;
     currentEpisode := None; currentEpisodeTitle := None |}.

(** The record of [movie_done]. *)
Definition test_movie : ContentDoc :=
  {| doc_type := movie; doc_title := Some "Test"%string;
     doc_thumbnail := Some "/thumbnails/thumbnail_1.jpg"%string;
     doc_streamingLinks := ["http://a"%string]; doc_episodes := [] |}.

(** The session of user 7 after [movie_to_links]. *)
Definition movie_no_link : State :=
  {| type := movie; step := step_movie_links; title := Some "Test"%string;
     thumbnail := Some "/thumbnails/thumbnail_1.jpg"%string;
     streamingLinks := Some 1%positive; episodes := None; episodeCount := None;
     currentEpisode := None; currentEpisodeTitle := None |}.

(** The session of user 7 after [series_to_count]. *)
Definition series_at_count : State :=
  {| type := webseries; step := step_episode_count; title := Some "S1"%string;
     thumbnail := Some "/thumbnails/thumbnail_1.jpg"%string;
     streamingLinks := None; episodes := Some 1%positive; episodeCount := None;
     currentEpisode := None; currentEpisodeTitle := None |}.

(** User 7 is about to send the link of the only episode of a series. *)
Definition series_to_link : list (Env * Update) :=
  series_to_count ++ [says 7 "1"; says 7 "Ep1"].

(** The session of user 7 after [series_to_link]. *)
Definition series_at_link : State :=
  {| type := webseries; step := step_episode_link; title := Some "S1"%string;
     thumbnail := Some "/thumbnails/thumbnail_1.jpg"%string;
     streamingLinks := None; episodes := Some 1%positive;
     episodeCount := Some (JS.Fin 1); currentEpisode := Some (JS.Fin 1);
     currentEpisodeTitle := Some "Ep1"%string |}.

(** User 7 has announced no episode at all and is about to send the link
    of episode 1. *)
Definition series_zero_to_link : list (Env * Update) :=
  series_to_count ++ [says 7 "0"; says 7 "Ep1"].

(** The record saved when ["linkA"] follows [series_zero_to_link]. *)
Definition one_episode_series : ContentDoc :=
  {| doc_type := webseries; doc_title := Some "S1"%string;
     doc_thumbnail := Some "/thumbnails/thumbnail_1.jpg"%string;
     doc_streamingLinks := [];
     doc_episodes := [{| episodeNumber := Some (JS.Fin 1);
                         ep_title := Some "Ep1"%string;
                         streamingLink := "linkA" |}] |}.

(** User 7 has announced two episodes and is about to send the link of the
    second. *)
Definition series_two_to_link : list (Env * Update) :=
  series_to_count
  ++ [says 7 "2"; says 7 "Ep1"; says 7 "linkA"; says 7 "Ep2"].

(** The session of user 7 after [series_two_to_link]. *)
Definition series_at_second_link : State :=
  {| type := webseries; step := step_episode_link; title := Some "S1"%string;
     thumbnail := Some "/thumbnails/thumbnail_1.jpg"%string;
     streamingLinks := None; episodes := Some 1%positive;
     episodeCount := Some (JS.Fin 2); currentEpisode := Some (JS.Fin 2);
     currentEpisodeTitle := Some "Ep2"%string |}.

(** The same, while user 8 asks for the list and the database does not
    answer. *)
Definition series_beside_failure : list (Env * Update) :=
  series_to_count
  ++ [says 7 "2"; says 7 "Ep1";
      (db_down, MessageUpdate 8 (text_message "📋 View Content"));
      says 7 "linkA"; says 7 "Ep2"].

(** The record saved when ["linkB"] follows [series_two_to_link]. *)
Definition two_episode_series : ContentDoc :=
  {| doc_type := webseries; doc_title := Some "S1"%string;
     doc_thumbnail := Some "/thumbnails/thumbnail_1.jpg"%string;
     doc_streamingLinks := [];
     doc_episodes := [{| episodeNumber := Some (JS.Fin 1);
                         ep_title := Some "Ep1"%string;
                         streamingLink := "linkA" |};
                      {| episodeNumber := Some (JS.Fin 2);
                         ep_title := Some "Ep2"%string;
                         streamingLink := "linkB" |}] |}.

(** ** Vocabulary of the further properties *)

(** The update only browses: the start command, 'View Content',
    'Edit Content', or a callback query. *)
Definition browses (u : Update) : bool :=
  match u with
  | MessageUpdate _ m =>
    is_start_command m || hears "📋 View Content" m || hears "✏️ Edit Content" m
  | CallbackQueryUpdate _ _ => true
  end.

(** The answers that report an error or ask again for the same input. *)
Definition is_error_reply (r : Reply) : bool :=
  match r with
  | ErrFetching | ErrFetchingForEdit | ErrDownload | AskImage | NeedOneLink
  | ErrSaveMovie | AskValidNumber | ErrSaveSeries | AskValidLink
  | ContentNotFound | ErrLoading => true
  | _ => false
  end.

(** A text that [bot.on('message')] gets and finds truthy: it is not
    empty, it carries no bot command and it is no menu entry. *)
Definition plain_text (t : string) : bool :=
  JS.truthy t
  && (no_command (text_message t) && reaches_on_message (text_message t)).

(** A text that case ['movie_links'] takes as a link. *)
Definition link_text (t : string) : bool :=
  plain_text t && negb (bool_decide (t = "/done"%string)).

(** The user sends a text, under some answers of the environment. *)
Definition tells (userId : Z) (e : Env * string) : Env * Update :=
  (e.1, MessageUpdate userId (text_message e.2)).

(** The user sends the title and then the link of an episode. *)
Definition tells_episode (userId : Z) (e : (Env * string) * (Env * string))
  : list (Env * Update) :=
  [tells userId e.1; tells userId e.2].

(** The entries of the episodes sent, numbered from [c]. *)
Fixpoint episodes_from (c : Z) (eps : list ((Env * string) * (Env * string)))
  : list Episode :=
  match eps with
  | [] => []
  | e :: eps' =>
    {| episodeNumber := Some (JS.Fin c); ep_title := Some e.1.2;
       streamingLink := e.2.2 |} :: episodes_from (c + 1) eps'
  end.

(** The thumbnail is a path under the static prefix [/thumbnails/]. *)
Definition served_path (v : option string) : Prop :=
  ∃ filename, v = Some ("/thumbnails/" ++ filename)%string.

(** The shape of a stored record: title and thumbnail are there, and of
    [streamingLinks] and [episodes] just the one of its [type] is
    populated. *)
Definition record_shape (d : ContentDoc) : Prop :=
  required (doc_title d) = true
  ∧ served_path (doc_thumbnail d)
  ∧ match doc_type d with
    | movie => doc_streamingLinks d ≠ [] ∧ doc_episodes d = []
    | webseries => doc_streamingLinks d = [] ∧ doc_episodes d ≠ []
    end.

(** Sessions past [title] hold a title, sessions past [thumbnail] a served
    path, and records have their shape. *)
Definition shapes_ok (w : World) : Prop :=
  (∀ u st, userStates w !! u = Some st →
           (step st ≠ step_title → required (title st) = true)
           ∧ (after_thumbnail (Some (step st)) = true →
              served_path (thumbnail st)))
  ∧ (∀ id d, contents w !! id = Some d → record_shape d).

(** The arrays of the sessions are in the store, and no two sessions share
    one. *)
Definition arrays_apart (w : World) : Prop :=
  (∀ u st l, userStates w !! u = Some st → streamingLinks st = Some l →
             l ∈ dom (linkArrays w))
  ∧ (∀ u st l, userStates w !! u = Some st → episodes st = Some l →
               l ∈ dom (episodeArrays w))
  ∧ (∀ u v su sv l, userStates w !! u = Some su → userStates w !! v = Some sv →
       streamingLinks su = Some l → streamingLinks sv = Some l → u = v)
  ∧ (∀ u v su sv l, userStates w !! u = Some su → userStates w !! v = Some sv →
       episodes su = Some l → episodes sv = Some l → u = v).

(** What a session has collected: its links and its episodes. *)
Definition collected (w : World) (st : State) : list string * list Episode :=
  (match streamingLinks st with Some l => deref (linkArrays w) l | None => [] end,
   match episodes st with Some l => deref (episodeArrays w) l | None => [] end).

(** User 8 opens the series form while user 7 collects links. *)
Definition two_users : list (Env * Update) :=
  movie_one_link ++ [says 8 "📺 Add Web Series"].

(** ** Proof steps *)

(** Unfold every handler and split on every test it makes. *)
Ltac handlers :=
  unfold handle_update, on_message, on_callback_query, hears_add_movie,
    hears_add_series, hears_view_content, hears_edit_content, case_title,
    case_thumbnail, case_movie_links, case_episode_count, case_episode_title,
    case_episode_link, or_new, alloc in *.

Ltac split_handler :=
  handlers; repeat (case_match; simplify_eq/=; try done).

(** * Properties *)

(** ** Dispatch and framing *)

Lemma handle_update_on_message env userId m w :
  reaches_on_message m = true →
  handle_update env (MessageUpdate userId m) w = on_message env userId m w.
Proof.
  unfold reaches_on_message, handle_update. intros H.
  repeat (apply andb_prop in H as [H ?]).
  repeat match goal with
         | H : negb ?b = true |- _ => apply negb_true_iff in H; rewrite H
         end.
  done.
Qed.

Lemma run_app w evs1 evs2 :
  run w (evs1 ++ evs2) = run w evs1 ≫= λ w1, run w1 evs2.
Proof.
  revert w. induction evs1 as [|[env u] evs1 IH]; intros w; simpl; [done|].
  destruct (handle_update env u w); [apply IH | done].
Qed.

(** A handler only touches the session of the sender. *)
Lemma handle_update_other env u w w' rs v :
  handle_update env u w = Done w' rs → v ≠ sender u →
  userStates w' !! v = userStates w !! v.
Proof.
  intros H Hv. destruct u as [userId m|userId data]; simpl in Hv;
    split_handler; by rewrite ?lookup_insert_ne, ?lookup_delete_ne by done.
Qed.

(** ** The shape invariant *)

Lemma save_lookup env doc c c' id d :
  save env doc c = Some c' → c' !! id = Some d →
  c !! id = Some d ∨ (c !! id = None ∧ d = doc).
Proof.
  unfold save. intros H Hd. repeat case_match; simplify_eq.
  destruct (decide (id = fresh (dom c))) as [->|Hne].
  - rewrite lookup_insert_eq in Hd. right. split; [|congruence].
    apply not_elem_of_dom, is_fresh.
  - rewrite lookup_insert_ne in Hd by done. by left.
Qed.

Lemma world_ok_initial : world_ok initial_world.
Proof. split; intros ? ?; simpl; by rewrite lookup_empty. Qed.

Lemma handle_update_world_ok env u w w' rs :
  world_ok w → handle_update env u w = Done w' rs → world_ok w'.
Proof.
  intros [Hs Hc] H. split.
  - intros v st' Hv. destruct (decide (v = sender u)) as [->|Hne].
    2:{ apply (Hs v). by rewrite <-(handle_update_other _ _ _ _ _ _ H Hne). }
    destruct u as [userId m|userId data]; simpl in Hv; revert Hv;
      split_handler;
      rewrite ?lookup_insert_eq, ?lookup_delete_eq; intros Hv; simplify_eq;
      try (by eapply Hs);
      try match goal with
          | Hst : userStates _ !! _ = Some ?st |- _ =>
            apply Hs in Hst; revert Hst; unfold state_ok; simpl;
            destruct (type st); unfold is_Some; naive_solver congruence
          end.
    all: unfold state_ok; simpl; naive_solver.
  - intros id d Hd. destruct u as [userId m|userId data];
      split_handler; try (by eapply Hc);
      match goal with
      | Hsv : save _ _ _ = Some _ |- _ =>
        destruct (save_lookup _ _ _ _ _ _ Hsv Hd) as [?|[_ ->]]; [by eapply Hc|]
      end.
    all: unfold movie_doc_ok; simpl; intros Hm.
    1:{ intros Hnil.
        match goal with
        | Hl : (length _ =? 0)%nat = false |- _ => rewrite Hnil in Hl; done
        end. }
    all: match goal with
         | Hst : userStates _ !! _ = Some ?st |- _ =>
           apply Hs in Hst; unfold state_ok in Hst; rewrite Hm in Hst
         end; naive_solver congruence.
Qed.

Lemma run_world_ok w evs w' :
  world_ok w → run w evs = Some w' → world_ok w'.
Proof.
  revert w. induction evs as [|[env u] evs IH]; intros w Hw; simpl.
  - by intros [= <-].
  - destruct (handle_update env u w) eqn:E; [|done].
    intros. eapply IH; [|done]. by eapply handle_update_world_ok.
Qed.

(** On a well-shaped world no handler throws. *)
Lemma handle_update_total env u w :
  world_ok w → ∃ w' rs, handle_update env u w = Done w' rs.
Proof.
  intros [Hs _]. destruct u as [userId m|userId data]; split_handler; eauto.
  match goal with
  | Hst : userStates _ !! _ = Some ?st |- _ =>
    apply Hs in Hst; unfold state_ok, is_Some in Hst; destruct (type st)
  end; naive_solver congruence.
Qed.

(** Every run from a well-shaped world, and so from the initial one, goes
    through. *)
Lemma run_total w evs :
  world_ok w → ∃ w', run w evs = Some w'.
Proof.
  revert w. induction evs as [|[env u] evs IH]; intros w Hw; simpl; [eauto|].
  destruct (handle_update_total env u w Hw) as (w' & rs & E). rewrite E.
  apply IH. by eapply handle_update_world_ok.
Qed.

(** ** Transitions of the step *)

Lemma step_of_insert userId st w h1 h2 c :
  step_of {| userStates := <[userId := st]> (userStates w); linkArrays := h1;
             episodeArrays := h2; contents := c |} userId = Some (step st).
Proof. unfold step_of. simpl. by rewrite lookup_insert_eq. Qed.

Lemma step_of_delete userId w h1 h2 c :
  step_of {| userStates := delete userId (userStates w); linkArrays := h1;
             episodeArrays := h2; contents := c |} userId = None.
Proof. unfold step_of. simpl. by rewrite lookup_delete_eq. Qed.

(** One update moves the step of a user along a row of the table, leaves it
    alone, or takes it back to [title] when that user picks a menu entry. *)
Lemma step_edges env u w w' rs v :
  handle_update env u w = Done w' rs →
  step_of w' v = step_of w v
  ∨ table_edge (step_of w v) (step_of w' v) = true
  ∨ (restarts v u = true ∧ step_of w' v = Some step_title).
Proof.
  intros H. destruct (decide (v = sender u)) as [->|Hne].
  2:{ left. unfold step_of. by rewrite (handle_update_other _ _ _ _ _ _ H Hne). }
  destruct u as [userId m|userId data]; simpl.
  - destruct (opens_session m) eqn:Ho.
    + right; right. split; [by rewrite bool_decide_eq_true_2|].
      unfold opens_session in Ho. apply andb_prop in Ho as [Hs Ho].
      apply negb_true_iff in Hs. unfold handle_update in H. rewrite Hs in H.
      unfold hears_add_movie, hears_add_series, alloc, set_state in H.
      destruct (hears "🎬 Add Movie" m); [|destruct (hears "📺 Add Web Series" m)];
        simplify_eq/=; by rewrite ?step_of_insert.
    + unfold opens_session in Ho. split_handler; auto;
        unfold set_state, delete_state, set_contents, set_episodeArrays,
          set_linkArrays; simpl;
        rewrite ?step_of_insert, ?step_of_delete;
        match goal with
        | Hst : userStates _ !! _ = Some ?st |- _ =>
          unfold step_of at 1 2; rewrite Hst; simpl;
          repeat match goal with Hs : step st = _ |- _ => rewrite Hs end
        end; simpl; auto.
  - split_handler; auto.
Qed.

(** Into a step after [thumbnail] the table leads only from [thumbnail] or
    from another step after it. *)
Lemma table_edge_after a b :
  table_edge a b = true → after_thumbnail b = true →
  a = Some step_thumbnail ∨ after_thumbnail a = true.
Proof. destruct a as [[]|], b as [[]|]; simpl; auto; discriminate. Qed.

Lemma run_snoc w evs env u :
  run w (evs ++ [(env, u)]) =
  run w evs ≫= λ w1, match handle_update env u w1 with
                     | Done w' _ => Some w'
                     | Throws => None
                     end.
Proof.
  rewrite run_app. destruct (run w evs) as [w1|]; simpl; [|done].
  by destruct (handle_update env u w1).
Qed.

(** A session that stands after [thumbnail] went through [thumbnail] and
    has stayed after it since. *)
Lemma passed_through_thumbnail evs w v :
  run initial_world evs = Some w → after_thumbnail (step_of w v) = true →
  ∃ evs1 evs2 w1,
    evs = evs1 ++ evs2 ∧ run initial_world evs1 = Some w1
    ∧ step_of w1 v = Some step_thumbnail
    ∧ ∀ pre post w2, evs2 = pre ++ post → pre ≠ [] → run w1 pre = Some w2 →
                     after_thumbnail (step_of w2 v) = true.
Proof.
  revert w. induction evs as [|[env u] evs IH] using rev_ind; intros w Hrun Ha.
  { simpl in Hrun. by simplify_eq. }
  rewrite run_snoc in Hrun.
  destruct (run initial_world evs) as [w0|] eqn:Hrun0; simpl in Hrun; [|done].
  destruct (handle_update env u w0) as [w'' rs|] eqn:Hu; simplify_eq.
  assert (step_of w0 v = Some step_thumbnail ∨ after_thumbnail (step_of w0 v) = true)
    as [Ht|Ha0].
  { destruct (step_edges _ _ _ _ _ v Hu) as [E|[E|[_ E]]].
    - rewrite <-E. auto.
    - by eapply table_edge_after.
    - by rewrite E in Ha. }
  - exists evs, [(env, u)], w0. split_and!; try done.
    intros pre post w2 E Hne Hpre.
    destruct pre as [|p [|p' pre]]; simplify_eq/=.
    rewrite Hu in Hpre. by simplify_eq.
  - destruct (IH w0 eq_refl Ha0) as (evs1 & evs2 & w1 & -> & Hr1 & Hs1 & Hstay).
    exists evs1, (evs2 ++ [(env, u)]), w1. split_and!; try done.
    { by rewrite app_assoc. }
    intros pre post w2 E Hne Hpre.
    destruct post as [|x post _] using rev_ind.
    + rewrite app_nil_r in E. subst pre. rewrite run_snoc in Hpre.
      rewrite run_app, Hr1 in Hrun0. simpl in Hrun0. rewrite Hrun0 in Hpre.
      simpl in Hpre. rewrite Hu in Hpre. by simplify_eq.
    + rewrite app_assoc in E. apply app_inj_tail in E as [E _].
      by eapply Hstay.
Qed.

(** ** The count of episodes *)

(** C2, as stated, fails: at [episode_count] the text ["0"] does not parse
    as a positive integer, yet it is accepted, the count becomes 0 and the
    step [episode_title]. *)
Lemma episode_count_accepts_zero :
  run initial_world series_to_count = Some (world_after series_to_count)
  ∧ step_of (world_after series_to_count) 7 = Some step_episode_count
  ∧ ¬ parses_as_positive_integer "0"
  ∧ handle_update answers (MessageUpdate 7 (text_message "0"))
      (world_after series_to_count)
    = Done (world_after (series_to_count ++ [says 7 "0"]))
           [AskFirstEpisodeTitle]
  ∧ step_of (world_after (series_to_count ++ [says 7 "0"])) 7
    = Some step_episode_title
  ∧ episodeCount <$> userStates (world_after (series_to_count ++ [says 7 "0"])) !! 7
    = Some (Some (JS.Fin 0)).
Proof.
  split_and!; try (vm_compute; reflexivity).
  intros (n & Hn & E). vm_compute in E. injection E as <-. lia.
Qed.

Lemma dec_digit_bounds c : JS.is_dec_digit c = true → (48 ≤ c ≤ 57)%N.
Proof.
  unfold JS.is_dec_digit. intros H. apply andb_prop in H as [H1 H2].
  apply N.leb_le in H1, H2. lia.
Qed.

Lemma trim_start_digit c r :
  JS.is_dec_digit c = true → JS.trim_start (c :: r) = c :: r.
Proof.
  intros H%dec_digit_bounds. simpl.
  assert (JS.ws1 c = false) as ->.
  { unfold JS.ws1. destruct (N.leb_spec 9 c), (N.leb_spec c 13), (N.eqb_spec c 32);
      simpl; try done; lia. }
  destruct r as [|c2 r]; [done|].
  assert (JS.ws2 c c2 = false) as ->.
  { unfold JS.ws2. destruct (N.eqb_spec c 194); [lia|done]. }
  destruct r as [|c3 r]; [done|].
  assert (JS.ws3 c c2 c3 = false) as ->; [|done].
  unfold JS.ws3.
  destruct (N.eqb_spec c 225), (N.eqb_spec c 226), (N.eqb_spec c 227),
    (N.eqb_spec c 239); try lia; done.
Qed.

Lemma span_digits_all isd ds :
  forallb isd ds = true → JS.span_digits isd ds = (ds, []).
Proof.
  induction ds as [|c ds IH]; simpl; [done|].
  intros H. apply andb_prop in H as [-> H]. by rewrite IH.
Qed.

(** A decimal numeral is numeric for [isNaN], and [parseInt] gives its
    value, rounded to a double. *)
Lemma decimal_numeral s :
  JS.bytes s ≠ [] → forallb JS.is_dec_digit (JS.bytes s) = true →
  JS.isNaN s = false
  ∧ JS.parseInt s = JS.to_double (JS.digits_value 10 (JS.bytes s)).
Proof.
  intros Hne Hall. unfold JS.isNaN, JS.parseInt.
  destruct (JS.bytes s) as [|c r] eqn:E; [done|].
  assert (JS.is_dec_digit c = true) as Hc.
  { simpl in Hall. by apply andb_prop in Hall as [? _]. }
  rewrite trim_start_digit by done.
  pose proof (dec_digit_bounds c Hc) as Hb.
  split.
  - apply negb_false_iff. unfold JS.numeric_literal_then_end.
    apply orb_true_iff. right.
    assert ((c =? 43)%N || (c =? 45)%N = false) as ->.
    { destruct (N.eqb_spec c 43), (N.eqb_spec c 45); try lia; done. }
    apply orb_true_iff. right. unfold JS.unsigned_decimal_then_end.
    by rewrite span_digits_all.
  - destruct (N.eqb_spec c 45); [lia|]. destruct (N.eqb_spec c 43); [lia|].
    assert (match r with
            | x :: r0 =>
              if (c =? 48)%N && ((x =? 120)%N || (x =? 88)%N)
              then (16, JS.is_hex_digit, r0)
              else (10, JS.is_dec_digit, c :: r)
            | [] => (10, JS.is_dec_digit, c :: r)
            end = (10, JS.is_dec_digit, c :: r)) as ->.
    { destruct r as [|x r0]; [done|].
      assert (JS.is_dec_digit x = true) as Hx%dec_digit_bounds.
      { simpl in Hall. apply andb_prop in Hall as [_ Hall].
        by apply andb_prop in Hall as [? _]. }
      destruct (N.eqb_spec x 120), (N.eqb_spec x 88); try lia.
      by rewrite andb_false_r. }
    by rewrite span_digits_all.
Qed.

(** C2, amended: in state [episode_count] a message is accepted iff its text
    is non-empty and [Number(text)] is not NaN; then [episodeCount] is
    [parseInt(text)], [currentEpisode] is 1 and the step is [episode_title].
    Every other message leaves the world, hence the step and the counters,
    as they are and is answered by the reprompt.  In particular a decimal
    numeral is accepted and [episodeCount] is its value (as a double). *)
Theorem episode_count_input env userId st m w :
  userStates w !! userId = Some st → step st = step_episode_count →
  (∀ t, text m = Some t → t ≠ ""%string → JS.isNaN t = false →
        on_message env userId m w =
        Done (set_state userId
                (with_step step_episode_title
                   (with_currentEpisode (JS.Fin 1)
                      (with_episodeCount (JS.parseInt t) st))) w)
             [AskFirstEpisodeTitle])
  ∧ ((∀ t, text m = Some t → t = ""%string ∨ JS.isNaN t = true) →
     on_message env userId m w = Done w [AskValidNumber])
  ∧ (∀ t, text m = Some t → JS.bytes t ≠ [] →
          forallb JS.is_dec_digit (JS.bytes t) = true →
          on_message env userId m w =
          Done (set_state userId
                  (with_step step_episode_title
                     (with_currentEpisode (JS.Fin 1)
                        (with_episodeCount
                           (JS.to_double (JS.digits_value 10 (JS.bytes t)))
                           st))) w)
               [AskFirstEpisodeTitle]).
Proof.
  intros Hst Hstep. unfold on_message. rewrite Hst, Hstep.
  unfold case_episode_count, truthy_text. split_and!.
  - intros t -> Ht Hn. destruct t; [done|]. simpl. by rewrite Hn.
  - intros H. destruct (text m) as [t|]; [|done].
    destruct (H t eq_refl) as [->|Hn]; [done|].
    destruct (JS.truthy t); [|done]. by rewrite Hn.
  - intros t -> Hne Hall.
    destruct (decimal_numeral t Hne Hall) as [Hn Hp].
    destruct t; [done|]. simpl. by rewrite Hn, Hp.
Qed.

Lemma episode_count_input_witness :
  userStates (world_after series_to_count) !! 7 = Some series_at_count
  ∧ step series_at_count = step_episode_count
  ∧ on_message answers 7 (text_message "-5") (world_after series_to_count)
    = Done (set_state 7
              (with_step step_episode_title
                 (with_currentEpisode (JS.Fin 1)
                    (with_episodeCount (JS.parseInt "-5") series_at_count)))
              (world_after series_to_count))
           [AskFirstEpisodeTitle]
  ∧ JS.parseInt "-5" = JS.Fin (-5)
  ∧ on_message answers 7 (text_message "twelve") (world_after series_to_count)
    = Done (world_after series_to_count) [AskValidNumber]
  ∧ on_message answers 7 (text_message "12") (world_after series_to_count)
    = Done (set_state 7
              (with_step step_episode_title
                 (with_currentEpisode (JS.Fin 1)
                    (with_episodeCount
                       (JS.to_double (JS.digits_value 10 (JS.bytes "12")))
                       series_at_count)))
              (world_after series_to_count))
           [AskFirstEpisodeTitle]
  ∧ JS.to_double (JS.digits_value 10 (JS.bytes "12")) = JS.Fin 12.
Proof.
  assert (userStates (world_after series_to_count) !! 7 = Some series_at_count)
    as Hst by (vm_compute; reflexivity).
  destruct (episode_count_input answers 7 series_at_count
              (text_message "-5") (world_after series_to_count) Hst eq_refl)
    as (Hacc & _ & _).
  destruct (episode_count_input answers 7 series_at_count
              (text_message "twelve") (world_after series_to_count) Hst eq_refl)
    as (_ & Hrej & _).
  destruct (episode_count_input answers 7 series_at_count
              (text_message "12") (world_after series_to_count) Hst eq_refl)
    as (_ & _ & Hdec).
  split_and!; [exact Hst|reflexivity| |reflexivity| | |reflexivity].
  - apply (Hacc "-5"%string); [reflexivity|done|reflexivity].
  - apply Hrej. intros t [= <-]. right. reflexivity.
  - apply (Hdec "12"%string); [reflexivity|done|reflexivity].
Defined.

(** ** Persist points *)

Lemma deref_push {A} (h : gmap loc (list A)) l x :
  deref (push l x h) l = deref h l ++ [x].
Proof. unfold deref, push. by rewrite lookup_insert_eq. Qed.

Lemma deref_push_ne {A} (h : gmap loc (list A)) l l' x :
  l ≠ l' → deref (push l x h) l' = deref h l'.
Proof. intros. unfold deref, push. by rewrite lookup_insert_ne. Qed.

(** C4, as stated, fails: the terminator with one link collected is a
    persist point, the insert fails, and the session is still there, to the
    letter, with the answer 'Error saving movie. Please try again.' *)
Lemma failed_insert_keeps_session :
  userStates (world_after movie_one_link) !! 7 = Some movie_at_links
  ∧ persist_point movie_at_links (text_message "/done")
      (world_after movie_one_link) = Some test_movie
  ∧ save db_down test_movie (contents (world_after movie_one_link)) = None
  ∧ handle_update db_down (MessageUpdate 7 (text_message "/done"))
      (world_after movie_one_link)
    = Done (world_after movie_one_link) [ErrSaveMovie]
  ∧ userStates (world_after movie_one_link) !! 7 ≠ None.
Proof. split_and!; try (vm_compute; reflexivity). vm_compute. discriminate. Qed.

(** C4, amended: at a persist point, if the insert succeeds the record is
    in the collection and the session is deleted; if the insert fails
    nothing is stored, the session is not deleted and the user is asked to
    try again.  After a failed insert of a movie the state is what it was.
    After a failed insert of a series the session map and the links are
    what they were, and the array of the session holds the episodes of the
    document that was not saved: those it held and the one just sent. *)
Theorem persist_point_session env userId st m w doc :
  userStates w !! userId = Some st → persist_point st m w = Some doc →
  (∀ c, save env doc (contents w) = Some c →
        ∃ w' rs, on_message env userId m w = Done w' rs
                 ∧ contents w' = c
                 ∧ userStates w' = delete userId (userStates w))
  ∧ (save env doc (contents w) = None →
     ∃ w' rs, on_message env userId m w = Done w' rs
              ∧ contents w' = contents w
              ∧ match step st with
                | step_movie_links => w' = w ∧ rs = [ErrSaveMovie]
                | _ =>
                  rs = [ErrSaveSeries]
                  ∧ userStates w' = userStates w
                  ∧ linkArrays w' = linkArrays w
                  ∧ ∀ l, episodes st = Some l →
                         episodeArrays w'
                         = <[l := doc_episodes doc]> (episodeArrays w)
                end).
Proof.
  intros Hst Hp. unfold persist_point in Hp. unfold on_message. rewrite Hst.
  destruct (step st); try done.
  - (* movie_links *)
    unfold case_movie_links.
    destruct (streamingLinks st) as [l|]; [|done].
    destruct (bool_decide (text m = Some "/done"%string)) eqn:Ht; [|done].
    apply bool_decide_eq_true_1 in Ht.
    destruct (length (deref (linkArrays w) l) =? 0)%nat eqn:Hl; [done|].
    simpl in Hp. simplify_eq. rewrite decide_True by done.
    split.
    + intros c ->. by eexists _, _.
    + intros ->. by eexists _, _.
  - (* episode_link *)
    unfold case_episode_link.
    destruct (truthy_text m) as [t|]; [|done].
    destruct (JS.ge _ _); [|done]. simplify_eq.
    destruct (episodes st) as [l|]; simpl.
    + rewrite deref_push. split.
      * intros c ->. by eexists _, _.
      * intros ->. eexists _, _. split_and!; try done. by intros ? [= <-].
    + rewrite deref_push. unfold deref at 1 3. rewrite lookup_insert_eq.
      change (default [] (Some []) ++ ?e) with e.
      split.
      * intros c ->. by eexists _, _.
      * intros ->. eexists _, _. by split_and!.
Qed.

Lemma persist_point_session_witness :
  userStates (world_after series_two_to_link) !! 7 = Some series_at_second_link
  ∧ persist_point series_at_second_link (text_message "linkB")
      (world_after series_two_to_link) = Some two_episode_series
  ∧ save db_down two_episode_series (contents (world_after series_two_to_link))
    = None
  ∧ ∃ w' rs,
      on_message db_down 7 (text_message "linkB")
        (world_after series_two_to_link) = Done w' rs
      ∧ contents w' = contents (world_after series_two_to_link)
      ∧ rs = [ErrSaveSeries]
      ∧ userStates w' = userStates (world_after series_two_to_link)
      ∧ linkArrays w' = linkArrays (world_after series_two_to_link)
      ∧ ∀ l, episodes series_at_second_link = Some l →
             episodeArrays w'
             = <[l := doc_episodes two_episode_series]>
                 (episodeArrays (world_after series_two_to_link)).
Proof.
  assert (userStates (world_after series_two_to_link) !! 7
          = Some series_at_second_link) as Hst by (vm_compute; reflexivity).
  assert (persist_point series_at_second_link (text_message "linkB")
            (world_after series_two_to_link) = Some two_episode_series)
    as Hp by (vm_compute; reflexivity).
  assert (save db_down two_episode_series
            (contents (world_after series_two_to_link)) = None)
    as Hs by (vm_compute; reflexivity).
  split_and!; [exact Hst|exact Hp|exact Hs|].
  exact (proj2 (persist_point_session db_down 7 series_at_second_link
                  (text_message "linkB") (world_after series_two_to_link)
                  two_episode_series Hst Hp) Hs).
Defined.

(** ** Movies *)

Lemma done_reaches_on_message m :
  text m = Some "/done"%string → reaches_on_message m = true.
Proof.
  intros H. unfold reaches_on_message, is_start_command, hears. by rewrite H.
Qed.

(** C5: every movie record that a run from the initial world has persisted
    has at least one streaming link; and the terminator sent in
    [movie_links] with no link collected persists nothing, leaves the world
    (the session and its step included) as it is and is answered by
    'Please add at least one streaming link before finishing.' *)
Theorem movie_links_nonempty :
  (∀ evs w id d,
     run initial_world evs = Some w → contents w !! id = Some d →
     doc_type d = movie → doc_streamingLinks d ≠ [])
  ∧ (∀ env userId st l m w,
       userStates w !! userId = Some st → step st = step_movie_links →
       streamingLinks st = Some l → deref (linkArrays w) l = [] →
       text m = Some "/done"%string →
       handle_update env (MessageUpdate userId m) w = Done w [NeedOneLink]).
Proof.
  split.
  - intros evs w id d Hrun Hd.
    destruct (run_world_ok _ _ _ world_ok_initial Hrun) as [_ Hc].
    by apply (Hc id d).
  - intros env userId st l m w Hst Hstep Hl Harr Ht.
    rewrite handle_update_on_message by by apply done_reaches_on_message.
    unfold on_message. rewrite Hst, Hstep. unfold case_movie_links.
    rewrite decide_True by done. by rewrite Hl, Harr.
Qed.

Lemma movie_links_nonempty_witness :
  (run initial_world movie_done = Some (world_after movie_done)
   ∧ contents (world_after movie_done) !! 0%N = Some test_movie
   ∧ doc_type test_movie = movie
   ∧ doc_streamingLinks test_movie ≠ [])
  ∧ (userStates (world_after movie_to_links) !! 7 = Some movie_no_link
     ∧ step movie_no_link = step_movie_links
     ∧ streamingLinks movie_no_link = Some 1%positive
     ∧ deref (linkArrays (world_after movie_to_links)) 1%positive = []
     ∧ text (text_message "/done") = Some "/done"%string
     ∧ handle_update answers (MessageUpdate 7 (text_message "/done"))
         (world_after movie_to_links)
       = Done (world_after movie_to_links) [NeedOneLink]).
Proof.
  assert (run initial_world movie_done = Some (world_after movie_done))
    as Hrun by (vm_compute; reflexivity).
  assert (contents (world_after movie_done) !! 0%N = Some test_movie)
    as Hd by (vm_compute; reflexivity).
  assert (userStates (world_after movie_to_links) !! 7 = Some movie_no_link)
    as Hst by (vm_compute; reflexivity).
  assert (deref (linkArrays (world_after movie_to_links)) 1%positive = [])
    as Harr by (vm_compute; reflexivity).
  split.
  - split_and!; [exact Hrun|exact Hd|reflexivity|].
    exact (proj1 movie_links_nonempty movie_done (world_after movie_done)
             0%N test_movie Hrun Hd eq_refl).
  - split_and!; [exact Hst|reflexivity|reflexivity|exact Harr|reflexivity|].
    exact (proj2 movie_links_nonempty answers 7 movie_no_link 1%positive
             (text_message "/done") (world_after movie_to_links)
             Hst eq_refl eq_refl Harr eq_refl).
Defined.

(** ** Sessions after a persist, and messages without a session *)

Lemma contents_changed env u w w' rs :
  handle_update env u w = Done w' rs → contents w' ≠ contents w →
  userStates w' !! sender u = None.
Proof.
  intros H Hc. destruct u as [userId m|userId data]; split_handler;
    by rewrite lookup_delete_eq.
Qed.

(** C6: after an update that has persisted a record the sender has no
    session; and a message that [bot.on('message')] receives while the
    sender has no session is a no-op: the handler returns at its state
    guard, with the same world and no answer.  The messages that carry no
    bot command and no menu entry are received by that handler. *)
Theorem no_session_after_persist :
  (∀ env u w w' rs,
     handle_update env u w = Done w' rs → contents w' ≠ contents w →
     userStates w' !! sender u = None)
  ∧ (∀ env userId m w,
       userStates w !! userId = None → on_message env userId m w = Done w [])
  ∧ (∀ env userId m w,
       userStates w !! userId = None →
       no_command m = true → reaches_on_message m = true →
       handle_update env (MessageUpdate userId m) w = Done w []).
Proof.
  split_and!.
  - apply contents_changed.
  - intros env userId m w Hst. unfold on_message. by rewrite Hst.
  - intros env userId m w Hst _ Hm. rewrite handle_update_on_message by done.
    unfold on_message. by rewrite Hst.
Qed.

Lemma no_session_after_persist_witness :
  (handle_update answers (MessageUpdate 7 (text_message "/done"))
     (world_after movie_one_link) = Done (world_after movie_done) [MovieAdded]
   ∧ contents (world_after movie_done) ≠ contents (world_after movie_one_link)
   ∧ userStates (world_after movie_done) !! 7 = None)
  ∧ (userStates (world_after movie_done) !! 7 = None
     ∧ on_message answers 7 photo_message (world_after movie_done)
       = Done (world_after movie_done) [])
  ∧ (userStates (world_after movie_done) !! 7 = None
     ∧ no_command (text_message "hello") = true
     ∧ reaches_on_message (text_message "hello") = true
     ∧ handle_update answers (MessageUpdate 7 (text_message "hello"))
         (world_after movie_done) = Done (world_after movie_done) []).
Proof.
  destruct no_session_after_persist as (H1 & H2 & H3).
  assert (handle_update answers (MessageUpdate 7 (text_message "/done"))
            (world_after movie_one_link)
          = Done (world_after movie_done) [MovieAdded])
    as Hu by (vm_compute; reflexivity).
  assert (contents (world_after movie_done)
          ≠ contents (world_after movie_one_link)) as Hc.
  { intros E. apply (f_equal (λ c, c !! 0%N)) in E. vm_compute in E.
    discriminate. }
  assert (userStates (world_after movie_done) !! 7 = None)
    as Hn by (vm_compute; reflexivity).
  split_and!; [exact Hu|exact Hc| |exact Hn| |exact Hn|reflexivity|reflexivity|].
  - exact (H1 _ _ _ _ _ Hu Hc).
  - exact (H2 answers 7 photo_message _ Hn).
  - exact (H3 answers 7 (text_message "hello") _ Hn eq_refl eq_refl).
Defined.

(** ** Malformed input *)

(** In the steps [title], [movie_links] and [episode_title] a message
    without text gets no answer and changes nothing. *)
Lemma no_text_no_answer env userId st m w :
  userStates w !! userId = Some st → truthy_text m = None →
  text m ≠ Some "/done"%string →
  step st = step_title ∨ step st = step_movie_links
  ∨ step st = step_episode_title →
  on_message env userId m w = Done w [].
Proof.
  intros Hst Ht Hd Hstep. unfold on_message. rewrite Hst.
  destruct Hstep as [->|[->| ->]];
    unfold case_title, case_movie_links, case_episode_title; rewrite ?Ht;
    [done| |done].
  by rewrite decide_False by done.
Qed.

(** The sibling steps do answer: [thumbnail], [episode_count] and
    [episode_link] reprompt and change nothing. *)
Lemma no_text_reprompt env userId st m w :
  userStates w !! userId = Some st → truthy_text m = None → photo m = None →
  (step st = step_thumbnail → on_message env userId m w = Done w [AskImage])
  ∧ (step st = step_episode_count →
     on_message env userId m w = Done w [AskValidNumber])
  ∧ (step st = step_episode_link →
     on_message env userId m w = Done w [AskValidLink]).
Proof.
  intros Hst Ht Hp. unfold on_message. rewrite Hst.
  split_and!; intros ->;
    unfold case_thumbnail, case_episode_count, case_episode_link;
    by rewrite ?Ht, ?Hp.
Qed.

(** C7: the code at the failing input.  User 7 is at step [title] and sends
    a photo: the world stays as it is and nothing is answered, no
    reprompt. *)
Theorem title_photo_no_reprompt :
  step_of (world_after movie_opened) 7 = Some step_title
  ∧ handle_update answers (MessageUpdate 7 photo_message)
      (world_after movie_opened)
    = Done (world_after movie_opened) [].
Proof. split; vm_compute; reflexivity. Qed.

(** ** The read API *)

(** C8: the code at the failing input.  The collection holds one record,
    under the id 0.  [GET /api/content/00000000000000000000000a] asks for an
    id that is not there and is answered with status 200 and the body
    [null]: no not-found outcome and no error body.  The edit callback has
    the test [if (!content)] that the route lacks, and answers 'Content not
    found.' for the same id.  An id that is no ObjectId makes [findById]
    reject, and the route answers with status 500 and the cast error. *)
Theorem absent_id_answers_null :
  contents (world_after movie_done) !! 0%N = Some test_movie
  ∧ cast_ObjectId "00000000000000000000000a" = Some 10%N
  ∧ contents (world_after movie_done) !! 10%N = None
  ∧ get_content_by_id answers "00000000000000000000000a"
      (world_after movie_done)
    = {| status := 200; body := JNull |}
  ∧ handle_update answers
      (CallbackQueryUpdate 7 "edit_00000000000000000000000a")
      (world_after movie_done)
    = Done (world_after movie_done) [ContentNotFound]
  ∧ cast_ObjectId "abc" = None
  ∧ get_content_by_id answers "abc" (world_after movie_done)
    = {| status := 500; body := JErrorBody (CastError "abc") |}.
Proof. split_and!; vm_compute; reflexivity. Qed.

(** ** A blank episode count *)

Lemma ge_NaN a : JS.ge a JS.NaN = false.
Proof. by destruct a. Qed.

(** A session in the episode loop whose count is NaN stays so under every
    update that is not a menu entry of its user, and the updates of its user
    persist nothing. *)
Lemma nan_loop_step env u w userId st :
  userStates w !! userId = Some st → episodeCount st = Some JS.NaN →
  in_episode_loop st = true → restarts userId u = false →
  (sender u = userId → ∃ w' rs, handle_update env u w = Done w' rs)
  ∧ ∀ w' rs, handle_update env u w = Done w' rs →
      (sender u = userId → contents w' = contents w)
      ∧ ∃ st', userStates w' !! userId = Some st'
               ∧ episodeCount st' = Some JS.NaN ∧ in_episode_loop st' = true.
Proof.
  intros Hst Hn Hloop Hr.
  destruct (decide (sender u = userId)) as [<-|Hne].
  2:{ split; [done|]. intros w' rs H. split; [done|]. exists st.
      by rewrite (handle_update_other _ _ _ _ _ _ H). }
  assert (∀ rs0,
    (sender u = sender u → ∃ w' rs, Done w rs0 = Done w' rs)
    ∧ ∀ w' rs, Done w rs0 = Done w' rs →
        (sender u = sender u → contents w' = contents w)
        ∧ ∃ st', userStates w' !! sender u = Some st'
                 ∧ episodeCount st' = Some JS.NaN ∧ in_episode_loop st' = true)
    as Hsame.
  { intros rs0. split; [eauto|]. intros w' rs [= <- <-]. eauto. }
  assert (∀ w1 st1 rs1,
    contents w1 = contents w → episodeCount st1 = Some JS.NaN →
    in_episode_loop st1 = true →
    (sender u = sender u → ∃ w' rs, Done (set_state (sender u) st1 w1) rs1 = Done w' rs)
    ∧ ∀ w' rs, Done (set_state (sender u) st1 w1) rs1 = Done w' rs →
        (sender u = sender u → contents w' = contents w)
        ∧ ∃ st', userStates w' !! sender u = Some st'
                 ∧ episodeCount st' = Some JS.NaN ∧ in_episode_loop st' = true)
    as Hset.
  { intros w1 st1 rs1 Hc1 Hn1 Hl1. split; [eauto|]. intros w' rs [= <- <-].
    split; [done|]. exists st1. simpl. by rewrite lookup_insert_eq. }
  unfold in_episode_loop in Hloop.
  destruct u as [v m|v data]; simpl in *.
  - rewrite bool_decide_eq_true_2 in Hr by done. simpl in Hr.
    unfold opens_session in Hr.
    destruct (is_start_command m); simpl in Hr; [apply Hsame|].
    apply orb_false_elim in Hr as [-> ->].
    destruct (hears "📋 View Content" m).
    { unfold hears_view_content. repeat case_match; apply Hsame. }
    destruct (hears "✏️ Edit Content" m).
    { unfold hears_edit_content. repeat case_match; apply Hsame. }
    unfold on_message. rewrite Hst.
    destruct (step st) eqn:Hstep; try done.
    + unfold case_episode_title.
      destruct (truthy_text m); [|apply Hsame]. by apply Hset.
    + unfold case_episode_link. rewrite Hn. simpl. rewrite ge_NaN.
      destruct (truthy_text m); [|apply Hsame].
      destruct (or_new (episodes st) (episodeArrays w)) as [l h].
      by apply Hset.
  - unfold on_callback_query. repeat case_match; apply Hsame.
Qed.

Lemma nan_loop_run userId evs : ∀ w st,
  userStates w !! userId = Some st → episodeCount st = Some JS.NaN →
  in_episode_loop st = true → forallb (continues userId) evs = true →
  ∃ w2 st2, run w evs = Some w2 ∧ contents w2 = contents w
            ∧ userStates w2 !! userId = Some st2
            ∧ episodeCount st2 = Some JS.NaN ∧ in_episode_loop st2 = true.
Proof.
  induction evs as [|[env u] evs IH]; intros w st Hst Hn Hloop Hall; simpl.
  { eauto 10. }
  simpl in Hall. apply andb_prop in Hall as [Hc Hall].
  unfold continues in Hc. simpl in Hc. apply andb_prop in Hc as [Hs Hr].
  apply bool_decide_eq_true_1 in Hs. apply negb_true_iff in Hr.
  destruct (nan_loop_step env u w userId st Hst Hn Hloop Hr) as [Htot Hstep].
  destruct (Htot Hs) as (w' & rs & Hu). rewrite Hu.
  destruct (Hstep w' rs Hu) as (Hcont & st' & Hst' & Hn' & Hloop').
  destruct (IH w' st' Hst' Hn' Hloop' Hall) as (w2 & st2 & ? & Hc2 & ?).
  exists w2, st2. split; [done|]. split; [|done].
  by rewrite Hc2, Hcont.
Qed.

(** C9: at [episode_count] the one-blank text [" "] is accepted, the
    session enters the episode loop with the count NaN, the persist test
    [currentEpisode >= episodeCount] is then false whatever the counter, and
    whatever the user sends next, short of opening a new session from the
    menu, nothing is persisted and the session is still there. *)
Theorem blank_episode_count env userId st w :
  userStates w !! userId = Some st → step st = step_episode_count →
  ∃ w1 st1,
    handle_update env (MessageUpdate userId (text_message " ")) w
    = Done w1 [AskFirstEpisodeTitle]
    ∧ userStates w1 !! userId = Some st1
    ∧ step st1 = step_episode_title
    ∧ episodeCount st1 = Some JS.NaN
    ∧ (∀ c, JS.ge c (JS.to_number (episodeCount st1)) = false)
    ∧ ∀ evs, forallb (continues userId) evs = true →
        ∃ w2 st2, run w1 evs = Some w2 ∧ contents w2 = contents w
                  ∧ userStates w2 !! userId = Some st2
                  ∧ episodeCount st2 = Some JS.NaN.
Proof.
  intros Hst Hstep.
  rewrite handle_update_on_message by done.
  unfold on_message. rewrite Hst, Hstep. unfold case_episode_count.
  change (truthy_text (text_message " ")) with (Some " "%string).
  change (JS.isNaN " ") with false. change (JS.parseInt " ") with JS.NaN.
  simpl.
  set (st1 := with_step step_episode_title
                (with_currentEpisode (JS.Fin 1) (with_episodeCount JS.NaN st))).
  assert (userStates (set_state userId st1 w) !! userId = Some st1) as Hst1.
  { simpl. apply lookup_insert_eq. }
  exists (set_state userId st1 w), st1.
  split; [done|]. split; [done|]. split; [done|]. split; [done|]. split.
  { intros c. apply ge_NaN. }
  intros evs Hall.
  destruct (nan_loop_run userId evs _ st1 Hst1 eq_refl eq_refl Hall)
    as (w2 & st2 & Hr & Hc & Hs2 & Hn2 & _).
  by exists w2, st2.
Qed.

Lemma blank_episode_count_witness :
  userStates (world_after series_to_count) !! 7 = Some series_at_count
  ∧ step series_at_count = step_episode_count
  ∧ ∃ w1 st1,
      handle_update answers (MessageUpdate 7 (text_message " "))
        (world_after series_to_count)
      = Done w1 [AskFirstEpisodeTitle]
      ∧ userStates w1 !! 7 = Some st1
      ∧ step st1 = step_episode_title
      ∧ episodeCount st1 = Some JS.NaN
      ∧ (∀ c, JS.ge c (JS.to_number (episodeCount st1)) = false)
      ∧ ∀ evs, forallb (continues 7) evs = true →
          ∃ w2 st2, run w1 evs = Some w2
                    ∧ contents w2 = contents (world_after series_to_count)
                    ∧ userStates w2 !! 7 = Some st2
                    ∧ episodeCount st2 = Some JS.NaN.
Proof.
  assert (userStates (world_after series_to_count) !! 7 = Some series_at_count)
    as Hst by (vm_compute; reflexivity).
  split_and!; [exact Hst|reflexivity|].
  exact (blank_episode_count answers 7 series_at_count
           (world_after series_to_count) Hst eq_refl).
Defined.

(** ** A failed insert at the last episode *)

Lemma save_ok env doc c :
  required (doc_title doc) = true → required (doc_thumbnail doc) = true →
  db_error env = None → save env doc c = Some (<[fresh (dom c) := doc]> c).
Proof. intros Ht Hth Hdb. unfold save. by rewrite Ht, Hth, Hdb. Qed.

Lemma save_db_error env doc c :
  is_Some (db_error env) → save env doc c = None.
Proof. intros [msg Hdb]. unfold save. rewrite Hdb. by case_match. Qed.

(** C10: when the insert fails at the link of the last episode, the session
    is kept as it was but its [episodes] array has the new entry; the next
    text at the same step pushes a second entry with the same
    [episodeNumber], and the record that is then saved has more episodes
    than [episodeCount]. *)
Theorem failed_insert_duplicates_episode env1 env2 userId st l c n t1 t2 w :
  userStates w !! userId = Some st → step st = step_episode_link →
  episodes st = Some l →
  currentEpisode st = Some (JS.Fin c) → episodeCount st = Some (JS.Fin n) →
  n ≤ c → n ≤ Z.of_nat (length (deref (episodeArrays w) l)) + 1 →
  required (title st) = true → required (thumbnail st) = true →
  t1 ≠ ""%string → t2 ≠ ""%string →
  is_Some (db_error env1) → db_error env2 = None →
  ∃ w1 w2 doc,
    on_message env1 userId (text_message t1) w = Done w1 [ErrSaveSeries]
    ∧ userStates w1 !! userId = Some st
    ∧ contents w1 = contents w
    ∧ deref (episodeArrays w1) l
      = deref (episodeArrays w) l
        ++ [{| episodeNumber := Some (JS.Fin c);
               ep_title := currentEpisodeTitle st; streamingLink := t1 |}]
    ∧ on_message env2 userId (text_message t2) w1
      = Done w2 [SeriesAdded (title st) (length (doc_episodes doc))]
    ∧ contents w2 = <[fresh (dom (contents w)) := doc]> (contents w)
    ∧ doc_episodes doc
      = deref (episodeArrays w) l
        ++ [{| episodeNumber := Some (JS.Fin c);
               ep_title := currentEpisodeTitle st; streamingLink := t1 |};
            {| episodeNumber := Some (JS.Fin c);
               ep_title := currentEpisodeTitle st; streamingLink := t2 |}]
    ∧ n < Z.of_nat (length (doc_episodes doc)).
Proof.
  intros Hst Hstep Hl Hc Hn Hnc Hlen Ht Hth Ht1 Ht2 Hdb1 Hdb2.
  assert (∀ t, t ≠ ""%string → truthy_text (text_message t) = Some t) as Htxt.
  { intros [|a t] ?; done. }
  assert (JS.ge (JS.to_number (currentEpisode st))
                (JS.to_number (episodeCount st)) = true) as Hge.
  { rewrite Hc, Hn. simpl. by apply Z.leb_le. }
  set (e1 := {| episodeNumber := Some (JS.Fin c);
                ep_title := currentEpisodeTitle st; streamingLink := t1 |}).
  set (e2 := {| episodeNumber := Some (JS.Fin c);
                ep_title := currentEpisodeTitle st; streamingLink := t2 |}).
  set (w1 := set_episodeArrays (push l e1 (episodeArrays w)) w).
  set (doc := {| doc_type := type st; doc_title := title st;
                 doc_thumbnail := thumbnail st; doc_streamingLinks := [];
                 doc_episodes := deref (episodeArrays w) l ++ [e1; e2] |}).
  exists w1,
    (delete_state userId
       (set_contents (<[fresh (dom (contents w)) := doc]> (contents w))
          (set_episodeArrays (push l e2 (episodeArrays w1)) w1))),
    doc.
  assert (deref (push l e2 (episodeArrays w1)) l
          = deref (episodeArrays w) l ++ [e1; e2]) as Harr.
  { subst w1. simpl. rewrite !deref_push. by rewrite <-app_assoc. }
  split_and!.
  - unfold on_message. rewrite Hst, Hstep. unfold case_episode_link.
    rewrite Htxt, Hl, Hge by done. simpl. rewrite Hc.
    by rewrite save_db_error.
  - done.
  - done.
  - subst w1. simpl. apply deref_push.
  - unfold on_message. change (userStates w1) with (userStates w).
    rewrite Hst, Hstep. unfold case_episode_link.
    rewrite Htxt, Hl, Hge by done. simpl. rewrite Hc.
    fold e2. change (episodeArrays w1) with (push l e1 (episodeArrays w)) in Harr.
    rewrite Harr. fold doc.
    by rewrite (save_ok env2 doc) by done.
  - done.
  - done.
  - simpl. rewrite length_app. simpl. lia.
Qed.

Lemma failed_insert_duplicates_episode_witness :
  userStates (world_after series_to_link) !! 7 = Some series_at_link
  ∧ deref (episodeArrays (world_after series_to_link)) 1%positive = []
  ∧ is_Some (db_error db_down)
  ∧ ∃ w1 w2 doc,
      on_message db_down 7 (text_message "linkA") (world_after series_to_link)
      = Done w1 [ErrSaveSeries]
      ∧ userStates w1 !! 7 = Some series_at_link
      ∧ contents w1 = contents (world_after series_to_link)
      ∧ deref (episodeArrays w1) 1%positive
        = deref (episodeArrays (world_after series_to_link)) 1%positive
          ++ [{| episodeNumber := Some (JS.Fin 1);
                 ep_title := Some "Ep1"%string; streamingLink := "linkA" |}]
      ∧ on_message answers 7 (text_message "linkB") w1
        = Done w2 [SeriesAdded (Some "S1"%string) (length (doc_episodes doc))]
      ∧ contents w2
        = <[fresh (dom (contents (world_after series_to_link))) := doc]>
            (contents (world_after series_to_link))
      ∧ doc_episodes doc
        = deref (episodeArrays (world_after series_to_link)) 1%positive
          ++ [{| episodeNumber := Some (JS.Fin 1);
                 ep_title := Some "Ep1"%string; streamingLink := "linkA" |};
              {| episodeNumber := Some (JS.Fin 1);
                 ep_title := Some "Ep1"%string; streamingLink := "linkB" |}]
      ∧ 1 < Z.of_nat (length (doc_episodes doc)).
Proof.
  assert (userStates (world_after series_to_link) !! 7 = Some series_at_link)
    as Hst by (vm_compute; reflexivity).
  assert (deref (episodeArrays (world_after series_to_link)) 1%positive = [])
    as Harr by (vm_compute; reflexivity).
  assert (is_Some (db_error db_down)) as Hdb by (by eexists).
  split_and!; [exact Hst|exact Harr|exact Hdb|].
  refine (failed_insert_duplicates_episode db_down answers 7 series_at_link
            1%positive 1 1 "linkA" "linkB" (world_after series_to_link)
            Hst eq_refl eq_refl eq_refl eq_refl _ _ eq_refl eq_refl _ _ Hdb
            eq_refl).
  - lia.
  - rewrite Harr. simpl. lia.
  - discriminate.
  - discriminate.
Defined.

(** ** The episode counter *)

Lemma to_double_exact z : Z.abs z ≤ 2 ^ 53 → JS.to_double z = JS.Fin z.
Proof.
  intros H. unfold JS.to_double.
  destruct (Z.leb_spec (Z.abs z) (2 ^ 53)); [done|lia].
Qed.

(** The counter stays a positive integer up to 2^53, where it sticks. *)
Lemma succ_counter c :
  1 ≤ c ≤ 2 ^ 53 →
  ∃ c', JS.succ (JS.Fin c) = JS.Fin c' ∧ 1 ≤ c' ≤ 2 ^ 53
        ∧ (c < 2 ^ 53 → c' = c + 1).
Proof.
  intros Hc. destruct (decide (c = 2 ^ 53)) as [->|Hne].
  - exists (2 ^ 53). split; [by vm_compute|]. lia.
  - exists (c + 1). simpl. rewrite to_double_exact by lia. split; [done|lia].
Qed.

Lemma numbered_nil : numbered [] 0.
Proof. done. Qed.

Lemma numbered_snoc arr c e :
  1 ≤ c → numbered arr (c - 1) → episodeNumber e = Some (JS.Fin c) →
  numbered (arr ++ [e]) c.
Proof.
  unfold numbered. intros Hc Harr He.
  replace c with ((c - 1) + 1) at 1 by lia.
  rewrite seqZ_app, !fmap_app, Harr by lia. f_equal.
  rewrite seqZ_cons, seqZ_nil by lia. simpl. rewrite He. do 3 f_equal. lia.
Qed.

Lemma numbered_length arr k :
  0 ≤ k → numbered arr k → Z.of_nat (length arr) = k.
Proof.
  unfold numbered. intros Hk H. apply (f_equal length) in H.
  rewrite !length_fmap, length_seqZ in H. lia.
Qed.

Lemma truthy_text_Some m t : truthy_text m = Some t → JS.truthy t = true.
Proof.
  unfold truthy_text. destruct (text m) as [t'|]; [|done].
  destruct (JS.truthy t') eqn:E; [|done]. by intros [= <-].
Qed.

(** A record enters the collection only at a persist point of the sender,
    and it is the document of that persist point. *)
Lemma persisted_at_persist_point env u w w' rs id d :
  handle_update env u w = Done w' rs →
  contents w !! id = None → contents w' !! id = Some d →
  ∃ userId m st, u = MessageUpdate userId m
                 ∧ userStates w !! userId = Some st
                 ∧ persist_point st m w = Some d.
Proof.
  intros H Hnone Hsome.
  destruct u as [userId m|userId data]; simpl in H.
  2:{ unfold on_callback_query in H. repeat case_match; simplify_eq; try congruence. }
  exists userId, m.
  destruct (is_start_command m); [simplify_eq; try congruence|].
  destruct (hears "🎬 Add Movie" m).
  { unfold hears_add_movie, alloc in H. simplify_eq/=; try congruence. }
  destruct (hears "📺 Add Web Series" m).
  { unfold hears_add_series, alloc in H. simplify_eq/=; try congruence. }
  destruct (hears "📋 View Content" m).
  { unfold hears_view_content in H. repeat case_match; simplify_eq; try congruence. }
  destruct (hears "✏️ Edit Content" m).
  { unfold hears_edit_content in H. repeat case_match; simplify_eq; try congruence. }
  unfold on_message in H.
  destruct (userStates w !! userId) as [st|] eqn:Hst; [|simplify_eq; try congruence].
  exists st. split; [done|]. split; [done|].
  unfold persist_point.
  destruct (step st) eqn:Hstep.
  - unfold case_title in H. repeat case_match; simplify_eq/=; try congruence.
  - unfold case_thumbnail in H. repeat case_match; simplify_eq/=; try congruence.
  - unfold case_movie_links in H.
    destruct (decide (text m = Some "/done"%string)) as [Ht|Ht].
    2:{ repeat case_match; simplify_eq/=; try congruence. }
    rewrite bool_decide_eq_true_2 by done.
    destruct (streamingLinks st) as [l|]; [|done].
    destruct (length (deref (linkArrays w) l) =? 0)%nat;
      [simplify_eq; try congruence|].
    simpl. destruct (save _ _ _) as [c|] eqn:Hsave; simplify_eq/=.
    destruct (save_lookup _ _ _ _ _ _ Hsave Hsome) as [?|[_ ->]];
      [congruence|done].
  - unfold case_episode_count in H.
    repeat case_match; simplify_eq/=; try congruence.
  - unfold case_episode_title in H.
    repeat case_match; simplify_eq/=; try congruence.
  - unfold case_episode_link in H.
    destruct (truthy_text m) as [t|]; [|simplify_eq; try congruence].
    assert (∀ e, (let '(l, h) := or_new (episodes st) (episodeArrays w) in
                  deref (push l e h) l)
                 = match episodes st with
                   | Some l => deref (episodeArrays w) l
                   | None => []
                   end ++ [e]) as Harr.
    { intros e. destruct (episodes st) as [l|]; simpl.
      - apply deref_push.
      - rewrite deref_push. unfold deref. by rewrite lookup_insert_eq. }
    destruct (or_new (episodes st) (episodeArrays w)) as [l h].
    destruct (JS.ge _ _); [|simplify_eq/=; try congruence].
    rewrite Harr in H.
    destruct (save _ _ _) as [c|] eqn:Hsave; simplify_eq/=.
    destruct (save_lookup _ _ _ _ _ _ Hsave Hsome) as [?|[_ ->]];
      [congruence|done].
Qed.

(** ** The transition table *)

(** C3, as stated, fails: user 7 is at [movie_links], picks 'Add Movie'
    again, and the step goes back to [title], which is no row of the
    table. *)
Lemma menu_entry_leaves_table :
  run initial_world movie_to_links = Some (world_after movie_to_links)
  ∧ step_of (world_after movie_to_links) 7 = Some step_movie_links
  ∧ handle_update answers (MessageUpdate 7 (text_message "🎬 Add Movie"))
      (world_after movie_to_links)
    = Done (world_after (movie_to_links ++ [says 7 "🎬 Add Movie"]))
           [AskMovieTitle]
  ∧ step_of (world_after (movie_to_links ++ [says 7 "🎬 Add Movie"])) 7
    = Some step_title
  ∧ table_edge (Some step_movie_links) (Some step_title) = false.
Proof. split_and!; vm_compute; reflexivity. Qed.

(** C3, amended: an update moves the step of a user along a row of the
    table, or leaves it alone, or takes it back to [title] when that user
    picks 'Add Movie' or 'Add Web Series' (which replaces the session at any
    step); and a session that a run from the initial world has brought to
    [movie_links], [episode_count] or a later step was at [thumbnail] before
    and has been at such steps ever since. *)
Theorem step_follows_table :
  (∀ env u w w' rs v,
     handle_update env u w = Done w' rs →
     step_of w' v = step_of w v
     ∨ table_edge (step_of w v) (step_of w' v) = true
     ∨ (restarts v u = true ∧ step_of w' v = Some step_title))
  ∧ (∀ evs w v,
       run initial_world evs = Some w → after_thumbnail (step_of w v) = true →
       ∃ evs1 evs2 w1,
         evs = evs1 ++ evs2 ∧ run initial_world evs1 = Some w1
         ∧ step_of w1 v = Some step_thumbnail
         ∧ ∀ pre post w2, evs2 = pre ++ post → pre ≠ [] →
                          run w1 pre = Some w2 →
                          after_thumbnail (step_of w2 v) = true).
Proof.
  split.
  - intros. by eapply step_edges.
  - intros. by eapply passed_through_thumbnail.
Qed.

Lemma step_follows_table_witness :
  (handle_update answers (MessageUpdate 7 (text_message "http://a"))
     (world_after movie_to_links)
   = Done (world_after movie_one_link) [LinkAdded 1]
   ∧ (step_of (world_after movie_one_link) 7
      = step_of (world_after movie_to_links) 7
      ∨ table_edge (step_of (world_after movie_to_links) 7)
          (step_of (world_after movie_one_link) 7) = true
      ∨ (restarts 7 (MessageUpdate 7 (text_message "http://a")) = true
         ∧ step_of (world_after movie_one_link) 7 = Some step_title)))
  ∧ (run initial_world movie_one_link = Some (world_after movie_one_link)
     ∧ after_thumbnail (step_of (world_after movie_one_link) 7) = true
     ∧ ∃ evs1 evs2 w1,
         movie_one_link = evs1 ++ evs2 ∧ run initial_world evs1 = Some w1
         ∧ step_of w1 7 = Some step_thumbnail
         ∧ ∀ pre post w2, evs2 = pre ++ post → pre ≠ [] →
                          run w1 pre = Some w2 →
                          after_thumbnail (step_of w2 7) = true).
Proof.
  assert (handle_update answers (MessageUpdate 7 (text_message "http://a"))
            (world_after movie_to_links)
          = Done (world_after movie_one_link) [LinkAdded 1])
    as Hu by (vm_compute; reflexivity).
  assert (run initial_world movie_one_link = Some (world_after movie_one_link))
    as Hrun by (vm_compute; reflexivity).
  assert (after_thumbnail (step_of (world_after movie_one_link) 7) = true)
    as Ha by (vm_compute; reflexivity).
  split; [split; [exact Hu|]|split_and!; [exact Hrun|exact Ha|]].
  - exact (proj1 step_follows_table _ _ _ _ _ 7 Hu).
  - exact (proj2 step_follows_table movie_one_link
             (world_after movie_one_link) 7 Hrun Ha).
Defined.

(** * Further properties *)

(** ** No handler throws *)

(** X1: whatever the updates and the answers of the environment, the bot
    started from the empty state handles them all: no handler ever reads
    [state.streamingLinks.length] of a session without links array. *)
Theorem run_never_throws evs :
  ∃ w, run initial_world evs = Some w
       ∧ ∀ env u, ∃ w' rs, handle_update env u w = Done w' rs.
Proof.
  destruct (run_total initial_world evs world_ok_initial) as [w Hrun].
  exists w. split; [done|]. intros env u. apply handle_update_total.
  by eapply run_world_ok; [apply world_ok_initial|].
Qed.

(** ** Browsing *)

Lemma hears_exclusive t1 t2 m :
  t1 ≠ t2 → hears t1 m = true → hears t2 m = false.
Proof.
  unfold hears. intros Hne H1. apply bool_decide_eq_true_1 in H1.
  apply bool_decide_eq_false_2. congruence.
Qed.

(** X2: the start command, 'View Content', 'Edit Content' and every callback
    query change nothing: neither a session, nor an array, nor the
    collection; the handler ends normally with the same world. *)
Theorem browsing_changes_nothing env u w :
  browses u = true → ∃ rs, handle_update env u w = Done w rs.
Proof.
  assert (∀ t1 t2 m, String.eqb t1 t2 = false →
                     hears t1 m = true → hears t2 m = false) as Hx.
  { intros t1 t2 m Hne. apply hears_exclusive. by apply String.eqb_neq. }
  destruct u as [userId m|userId data]; simpl.
  - intros H. destruct (is_start_command m) eqn:Hs; [by eexists|].
    simpl in H. apply orb_prop in H as [H|H].
    + rewrite (Hx "📋 View Content"%string "🎬 Add Movie"%string m eq_refl H).
      rewrite (Hx "📋 View Content"%string "📺 Add Web Series"%string m eq_refl H).
      rewrite H. unfold hears_view_content. repeat case_match; by eexists.
    + rewrite (Hx "✏️ Edit Content"%string "🎬 Add Movie"%string m eq_refl H).
      rewrite (Hx "✏️ Edit Content"%string "📺 Add Web Series"%string m eq_refl H).
      rewrite (Hx "✏️ Edit Content"%string "📋 View Content"%string m eq_refl H).
      rewrite H. unfold hears_edit_content. repeat case_match; by eexists.
  - intros _. unfold on_callback_query. repeat case_match; by eexists.
Qed.

Lemma browsing_changes_nothing_witness :
  browses (MessageUpdate 7 (text_message "📋 View Content")) = true
  ∧ ∃ rs, handle_update db_down (MessageUpdate 7 (text_message "📋 View Content"))
            (world_after movie_one_link)
          = Done (world_after movie_one_link) rs.
Proof.
  split; [reflexivity|].
  exact (browsing_changes_nothing db_down
           (MessageUpdate 7 (text_message "📋 View Content"))
           (world_after movie_one_link) eq_refl).
Defined.

(** ** Menu entries *)

(** X3: 'Add Movie' and 'Add Web Series' give the sender a new session at
    step [title], whatever session the sender had: no title, no thumbnail,
    no counters, and one array of its kind, which is empty and was not in the
    store before (so no earlier session refers to it).  The other sessions
    and the collection stay as they are. *)
Theorem menu_entry_opens_session env userId m w :
  opens_session m = true →
  ∃ w' st l,
    handle_update env (MessageUpdate userId m) w
    = Done w' [if hears "🎬 Add Movie" m then AskMovieTitle else AskSeriesTitle]
    ∧ userStates w' = <[userId := st]> (userStates w)
    ∧ contents w' = contents w
    ∧ step st = step_title ∧ title st = None ∧ thumbnail st = None
    ∧ episodeCount st = None ∧ currentEpisode st = None
    ∧ currentEpisodeTitle st = None
    ∧ if hears "🎬 Add Movie" m
      then type st = movie ∧ streamingLinks st = Some l ∧ episodes st = None
           ∧ linkArrays w !! l = None ∧ linkArrays w' !! l = Some []
           ∧ episodeArrays w' = episodeArrays w
      else type st = webseries ∧ episodes st = Some l ∧ streamingLinks st = None
           ∧ episodeArrays w !! l = None ∧ episodeArrays w' !! l = Some []
           ∧ linkArrays w' = linkArrays w.
Proof.
  unfold opens_session. intros H. apply andb_prop in H as [Hs H].
  apply negb_true_iff in Hs. unfold handle_update. rewrite Hs.
  destruct (hears "🎬 Add Movie" m).
  - unfold hears_add_movie, alloc. eexists _, _, _. split; [done|]. simpl.
    split_and!; try done.
    + apply not_elem_of_dom, is_fresh.
    + apply lookup_insert_eq.
  - simpl in H. rewrite H. unfold hears_add_series, alloc.
    eexists _, _, _. split; [done|]. simpl. split_and!; try done.
    + apply not_elem_of_dom, is_fresh.
    + apply lookup_insert_eq.
Qed.

Lemma menu_entry_opens_session_witness :
  opens_session (text_message "📺 Add Web Series") = true
  ∧ ∃ w' st l,
      handle_update answers (MessageUpdate 7 (text_message "📺 Add Web Series"))
        (world_after movie_one_link)
      = Done w' [if hears "🎬 Add Movie" (text_message "📺 Add Web Series")
                 then AskMovieTitle else AskSeriesTitle]
      ∧ userStates w' = <[7 := st]> (userStates (world_after movie_one_link))
      ∧ contents w' = contents (world_after movie_one_link)
      ∧ step st = step_title ∧ title st = None ∧ thumbnail st = None
      ∧ episodeCount st = None ∧ currentEpisode st = None
      ∧ currentEpisodeTitle st = None
      ∧ if hears "🎬 Add Movie" (text_message "📺 Add Web Series")
        then type st = movie ∧ streamingLinks st = Some l ∧ episodes st = None
             ∧ linkArrays (world_after movie_one_link) !! l = None
             ∧ linkArrays w' !! l = Some []
             ∧ episodeArrays w' = episodeArrays (world_after movie_one_link)
        else type st = webseries ∧ episodes st = Some l
             ∧ streamingLinks st = None
             ∧ episodeArrays (world_after movie_one_link) !! l = None
             ∧ episodeArrays w' !! l = Some []
             ∧ linkArrays w' = linkArrays (world_after movie_one_link).
Proof.
  split; [reflexivity|].
  exact (menu_entry_opens_session answers 7 (text_message "📺 Add Web Series")
           (world_after movie_one_link) eq_refl).
Defined.

(** ** The collection only grows *)

Lemma save_insert env doc c c' :
  save env doc c = Some c' →
  c !! fresh (dom c) = None ∧ c' = <[fresh (dom c) := doc]> c.
Proof.
  unfold save. intros H. repeat case_match; simplify_eq.
  split; [|done]. apply not_elem_of_dom, is_fresh.
Qed.

(** One update leaves the collection alone or inserts one record under an
    id that was free. *)
Lemma handle_update_contents env u w w' rs :
  handle_update env u w = Done w' rs →
  contents w' = contents w
  ∨ ∃ id d, contents w !! id = None ∧ contents w' = <[id := d]> (contents w).
Proof.
  intros H. destruct u as [userId m|userId data]; split_handler; auto;
    right;
    match goal with
    | Hs : save _ _ _ = Some _ |- _ => apply save_insert in Hs as [? ->]
    end; eauto.
Qed.

Lemma run_contents evs : ∀ w w' id d,
  run w evs = Some w' → contents w !! id = Some d → contents w' !! id = Some d.
Proof.
  induction evs as [|[env u] evs IH]; intros w w' id d; simpl.
  - by intros [= <-].
  - destruct (handle_update env u w) as [w1 rs|] eqn:Hu; [|done].
    intros Hrun Hd. apply (IH w1 w' id d Hrun).
    destruct (handle_update_contents _ _ _ _ _ Hu) as [->|(id' & d' & Hn & ->)];
      [done|].
    rewrite lookup_insert_ne; [done|]. intros ->. congruence.
Qed.

(** X5: the collection only grows.  One update inserts at most one record,
    under an id that was free; a record that is stored stays stored,
    unchanged, whatever updates follow, and [GET /api/content/:id] goes on
    answering with it. *)
Theorem records_are_kept :
  (∀ env u w w' rs,
     handle_update env u w = Done w' rs →
     contents w' = contents w
     ∨ ∃ id d, contents w !! id = None ∧ contents w' = <[id := d]> (contents w))
  ∧ (∀ evs w w' id d,
       run w evs = Some w' → contents w !! id = Some d →
       contents w' !! id = Some d
       ∧ ∀ env s, cast_ObjectId s = Some id → db_error env = None →
                  get_content_by_id env s w'
                  = {| status := 200; body := JDoc d |}).
Proof.
  split; [apply handle_update_contents|].
  intros evs w w' id d Hrun Hd.
  pose proof (run_contents evs w w' id d Hrun Hd) as Hd'. split; [done|].
  intros env s Hs Hdb. unfold get_content_by_id, findById.
  by rewrite Hs, Hdb, Hd'.
Qed.

Lemma records_are_kept_witness :
  (handle_update answers (MessageUpdate 7 (text_message "/done"))
     (world_after movie_one_link) = Done (world_after movie_done) [MovieAdded]
   ∧ (contents (world_after movie_done) = contents (world_after movie_one_link)
      ∨ ∃ id d, contents (world_after movie_one_link) !! id = None
                ∧ contents (world_after movie_done)
                  = <[id := d]> (contents (world_after movie_one_link))))
  ∧ (run (world_after movie_done) series_two_to_link
     = Some (world_after (movie_done ++ series_two_to_link))
     ∧ contents (world_after movie_done) !! 0%N = Some test_movie
     ∧ contents (world_after (movie_done ++ series_two_to_link)) !! 0%N
       = Some test_movie
     ∧ ∀ env s, cast_ObjectId s = Some 0%N → db_error env = None →
                get_content_by_id env s
                  (world_after (movie_done ++ series_two_to_link))
                = {| status := 200; body := JDoc test_movie |}).
Proof.
  assert (handle_update answers (MessageUpdate 7 (text_message "/done"))
            (world_after movie_one_link)
          = Done (world_after movie_done) [MovieAdded])
    as Hu by (vm_compute; reflexivity).
  assert (run (world_after movie_done) series_two_to_link
          = Some (world_after (movie_done ++ series_two_to_link)))
    as Hrun by (vm_compute; reflexivity).
  assert (contents (world_after movie_done) !! 0%N = Some test_movie)
    as Hd by (vm_compute; reflexivity).
  split; [split; [exact Hu|]|split_and!; [exact Hrun|exact Hd|..]].
  - exact (proj1 records_are_kept _ _ _ _ _ Hu).
  - exact (proj1 (proj2 records_are_kept _ _ _ _ _ Hrun Hd)).
  - exact (proj2 (proj2 records_are_kept _ _ _ _ _ Hrun Hd)).
Defined.

(** ** Error answers *)

(** X9: an update that is answered by an error message or by a reprompt has
    changed no session, no links array and no record; the world is the same
    but for the episodes array, which has grown when the answer is 'Error
    saving web series'. *)
Theorem error_answer_keeps_state env u w w' rs r :
  handle_update env u w = Done w' rs → r ∈ rs → is_error_reply r = true →
  userStates w' = userStates w ∧ linkArrays w' = linkArrays w
  ∧ contents w' = contents w
  ∧ (r ≠ ErrSaveSeries → w' = w).
Proof.
  intros H Hr He.
  destruct u as [userId m|userId data]; split_handler;
    repeat match goal with
           | Hin : _ ∈ [] |- _ => by apply not_elem_of_nil in Hin
           | Hin : _ ∈ _ :: _ |- _ =>
             apply elem_of_cons in Hin as [->|Hin]
           end; try done.
  all: repeat case_match; done.
Qed.

Lemma error_answer_keeps_state_witness :
  handle_update db_down (MessageUpdate 7 (text_message "/done"))
    (world_after movie_one_link)
  = Done (world_after movie_one_link) [ErrSaveMovie]
  ∧ ErrSaveMovie ∈ [ErrSaveMovie]
  ∧ is_error_reply ErrSaveMovie = true
  ∧ userStates (world_after movie_one_link) = userStates (world_after movie_one_link)
  ∧ linkArrays (world_after movie_one_link) = linkArrays (world_after movie_one_link)
  ∧ contents (world_after movie_one_link) = contents (world_after movie_one_link)
  ∧ (ErrSaveMovie ≠ ErrSaveSeries
     → world_after movie_one_link = world_after movie_one_link).
Proof.
  assert (handle_update db_down (MessageUpdate 7 (text_message "/done"))
            (world_after movie_one_link)
          = Done (world_after movie_one_link) [ErrSaveMovie])
    as Hu by (vm_compute; reflexivity).
  assert (ErrSaveMovie ∈ [ErrSaveMovie]) as Hin by apply list_elem_of_here.
  split_and!; [exact Hu|exact Hin|reflexivity|..];
    apply (error_answer_keeps_state db_down _ _ _ _ ErrSaveMovie Hu Hin eq_refl).
Defined.

(** ** The shape of the records *)

Lemma shapes_ok_initial : shapes_ok initial_world.
Proof. split; intros ? ?; simpl; by rewrite lookup_empty. Qed.

Lemma persist_point_shape st m w d :
  state_ok st →
  (step st ≠ step_title → required (title st) = true) →
  (after_thumbnail (Some (step st)) = true → served_path (thumbnail st)) →
  persist_point st m w = Some d → record_shape d.
Proof.
  unfold persist_point, state_ok, record_shape. intros Hok Ht Hth Hp.
  destruct (step st) eqn:Hstep; try done.
  - destruct (streamingLinks st) as [l|]; [|done].
    destruct (bool_decide _); [|done].
    destruct (length (deref (linkArrays w) l) =? 0)%nat eqn:Hl; [done|].
    simplify_eq/=. split; [by apply Ht|]. split; [by apply Hth|].
    destruct (type st); [|naive_solver]. split; [|done].
    intros E. by rewrite E in Hl.
  - destruct (truthy_text m) as [t|]; [|done].
    destruct (JS.ge _ _); [|done]. simplify_eq/=.
    split; [by apply Ht|]. split; [by apply Hth|].
    destruct (type st); [naive_solver congruence|]. split; [done|].
    by destruct (match episodes st with Some _ => _ | None => _ end).
Qed.

Lemma handle_update_shapes_ok env u w w' rs :
  world_ok w → shapes_ok w → handle_update env u w = Done w' rs → shapes_ok w'.
Proof.
  intros [Hs _] [Hsess Hrec] H. split.
  - intros v st' Hv. destruct (decide (v = sender u)) as [->|Hne].
    2:{ apply (Hsess v). by rewrite <-(handle_update_other _ _ _ _ _ _ H Hne). }
    destruct u as [userId m|userId data]; simpl in Hv; revert Hv;
      split_handler;
      rewrite ?lookup_insert_eq, ?lookup_delete_eq; intros Hv; simplify_eq;
      try (by eapply Hsess);
      try match goal with
          | Hst : userStates _ !! _ = Some ?st |- _ =>
            pose proof (Hsess _ _ Hst) as [Ht Hth]; simpl;
            repeat match goal with
                   | Hstep : step st = _ |- _ => rewrite Hstep in Ht, Hth
                   end;
            split; intros; try done; try (by apply Ht); try (by apply Hth);
            try (by eexists);
            try (erewrite truthy_text_Some; by eauto)
          end.
  - intros id d Hd.
    destruct (contents w !! id) as [d0|] eqn:Hold.
    + destruct (handle_update_contents _ _ _ _ _ H) as [E|(id' & d' & Hn & E)];
        rewrite E in Hd.
      * apply (Hrec id). congruence.
      * rewrite lookup_insert_ne in Hd by congruence. apply (Hrec id). congruence.
    + destruct (persisted_at_persist_point _ _ _ _ _ _ _ H Hold Hd)
        as (userId & m & st & -> & Hst & Hp).
      destruct (Hsess _ _ Hst) as [Ht Hth].
      eapply persist_point_shape; eauto.
Qed.

Lemma run_shapes_ok evs : ∀ w w',
  world_ok w → shapes_ok w → run w evs = Some w' → shapes_ok w'.
Proof.
  induction evs as [|[env u] evs IH]; intros w w' Hw Hsh; simpl.
  - by intros [= <-].
  - destruct (handle_update env u w) as [w1 rs|] eqn:Hu; [|done].
    apply IH.
    + by eapply handle_update_world_ok.
    + by eapply handle_update_shapes_ok.
Qed.

(** X6: every record that the bot has stored, from the empty state on, has a
    non-empty title and a thumbnail path under [/thumbnails/], the prefix
    the server serves; a movie has at least one streaming link and no
    episode, a web series at least one episode and no streaming link. *)
Theorem stored_records_shape evs w id d :
  run initial_world evs = Some w → contents w !! id = Some d →
  (∃ t, doc_title d = Some t ∧ t ≠ ""%string)
  ∧ (∃ filename, doc_thumbnail d = Some ("/thumbnails/" ++ filename)%string)
  ∧ match doc_type d with
    | movie => doc_streamingLinks d ≠ [] ∧ doc_episodes d = []
    | webseries => doc_streamingLinks d = [] ∧ doc_episodes d ≠ []
    end.
Proof.
  intros Hrun Hd.
  destruct (run_shapes_ok evs _ _ world_ok_initial shapes_ok_initial Hrun)
    as [_ Hrec].
  destruct (Hrec id d Hd) as (Ht & Hth & Hty). split_and!; [|done..].
  unfold required in Ht. destruct (doc_title d) as [t|]; [|done].
  exists t. split; [done|]. by destruct t.
Qed.

Lemma stored_records_shape_witness :
  run initial_world (movie_done ++ series_two_to_link ++ [says 7 "linkB"])
  = Some (world_after (movie_done ++ series_two_to_link ++ [says 7 "linkB"]))
  ∧ contents (world_after (movie_done ++ series_two_to_link ++ [says 7 "linkB"]))
      !! 1%N = Some two_episode_series
  ∧ (∃ t, doc_title two_episode_series = Some t ∧ t ≠ ""%string)
  ∧ (∃ filename, doc_thumbnail two_episode_series
                 = Some ("/thumbnails/" ++ filename)%string)
  ∧ match doc_type two_episode_series with
    | movie => doc_streamingLinks two_episode_series ≠ []
               ∧ doc_episodes two_episode_series = []
    | webseries => doc_streamingLinks two_episode_series = []
                   ∧ doc_episodes two_episode_series ≠ []
    end.
Proof.
  assert (run initial_world (movie_done ++ series_two_to_link ++ [says 7 "linkB"])
          = Some (world_after
                    (movie_done ++ series_two_to_link ++ [says 7 "linkB"])))
    as Hrun by (vm_compute; reflexivity).
  assert (contents (world_after
                      (movie_done ++ series_two_to_link ++ [says 7 "linkB"]))
            !! 1%N = Some two_episode_series)
    as Hd by (vm_compute; reflexivity).
  split_and!; [exact Hrun|exact Hd|..];
    apply (stored_records_shape _ _ _ _ Hrun Hd).
Defined.

(** ** Sessions do not share arrays *)

Lemma arrays_apart_initial : arrays_apart initial_world.
Proof. split_and!; intros ? ? ?; simpl; by rewrite lookup_empty. Qed.

(** What one update writes in the store: the array of the sender's session,
    or a new one; and the arrays of the sender's session afterwards are the
    old ones or new ones. *)
Lemma handle_update_footprint env u w w' rs :
  handle_update env u w = Done w' rs →
  (∀ l, l ∈ dom (linkArrays w) →
        (∀ st, userStates w !! sender u = Some st → streamingLinks st ≠ Some l) →
        linkArrays w' !! l = linkArrays w !! l)
  ∧ (∀ l, l ∈ dom (episodeArrays w) →
          (∀ st, userStates w !! sender u = Some st → episodes st ≠ Some l) →
          episodeArrays w' !! l = episodeArrays w !! l)
  ∧ dom (linkArrays w) ⊆ dom (linkArrays w')
  ∧ dom (episodeArrays w) ⊆ dom (episodeArrays w')
  ∧ (∀ st' l, userStates w' !! sender u = Some st' → streamingLinks st' = Some l →
       ((l ∉ dom (linkArrays w)) ∧ (l ∈ dom (linkArrays w')))
       ∨ ∃ st, userStates w !! sender u = Some st ∧ streamingLinks st = Some l)
  ∧ (∀ st' l, userStates w' !! sender u = Some st' → episodes st' = Some l →
       ((l ∉ dom (episodeArrays w)) ∧ (l ∈ dom (episodeArrays w')))
       ∨ ∃ st, userStates w !! sender u = Some st ∧ episodes st = Some l).
Proof.
  intros H.
  assert (∀ A (h : gmap loc (list A)) l x, dom h ⊆ dom (<[l := x]> h)) as Hsub.
  { intros. rewrite dom_insert_L. set_solver. }
  assert (∀ A (h : gmap loc (list A)) l x, l ∈ dom (<[l := x]> h)) as Hin.
  { intros. rewrite dom_insert_L. set_solver. }
  assert (∀ A (h : gmap loc (list A)), fresh (dom h) ∉ dom h) as Hfr
    by (intros; apply is_fresh).
  destruct u as [userId m|userId data]; simpl; split_handler;
    unfold push in *; simplify_eq/=;
    (split_and!; [intros ? ? Hne|intros ? ? Hne|..|intros ? ? Hs' El
                 |intros ? ? Hs' El]);
    rewrite ?lookup_insert_eq, ?lookup_delete_eq in *; simplify_eq/=;
    try done; eauto;
    try (by (etrans; [|apply Hsub]; try apply Hsub));
    try (rewrite !lookup_insert_ne; [done|..]; intros <-;
         first [by eapply Hne|by eapply Hfr]).
Qed.

Lemma handle_update_arrays_apart env u w w' rs :
  arrays_apart w → handle_update env u w = Done w' rs → arrays_apart w'.
Proof.
  intros (Hl & He & Hli & Hei) H.
  destruct (handle_update_footprint _ _ _ _ _ H)
    as (_ & _ & Hdl & Hde & Hnl & Hne).
  pose proof (λ v, handle_update_other _ _ _ _ _ v H) as Hother.
  split_and!.
  - intros v st l Hv El. destruct (decide (v = sender u)) as [->|Hv'].
    + destruct (Hnl st l Hv El) as [[_ ?]|(st0 & H0 & E0)]; [done|].
      apply Hdl. by eapply Hl.
    + rewrite Hother in Hv by done. apply Hdl. by eapply Hl.
  - intros v st l Hv El. destruct (decide (v = sender u)) as [->|Hv'].
    + destruct (Hne st l Hv El) as [[_ ?]|(st0 & H0 & E0)]; [done|].
      apply Hde. by eapply He.
    + rewrite Hother in Hv by done. apply Hde. by eapply He.
  - intros v1 v2 s1 s2 l H1 H2 E1 E2.
    destruct (decide (v1 = sender u)) as [->|Hn1],
      (decide (v2 = sender u)) as [->|Hn2]; try done.
    + rewrite Hother in H2 by done.
      destruct (Hnl s1 l H1 E1) as [[Hnot _]|(st0 & H0 & E0)].
      * destruct Hnot. by eapply Hl.
      * by eapply Hli.
    + rewrite Hother in H1 by done.
      destruct (Hnl s2 l H2 E2) as [[Hnot _]|(st0 & H0 & E0)].
      * destruct Hnot. by eapply Hl.
      * by eapply Hli.
    + rewrite Hother in H1, H2 by done. by eapply Hli.
  - intros v1 v2 s1 s2 l H1 H2 E1 E2.
    destruct (decide (v1 = sender u)) as [->|Hn1],
      (decide (v2 = sender u)) as [->|Hn2]; try done.
    + rewrite Hother in H2 by done.
      destruct (Hne s1 l H1 E1) as [[Hnot _]|(st0 & H0 & E0)].
      * destruct Hnot. by eapply He.
      * by eapply Hei.
    + rewrite Hother in H1 by done.
      destruct (Hne s2 l H2 E2) as [[Hnot _]|(st0 & H0 & E0)].
      * destruct Hnot. by eapply He.
      * by eapply Hei.
    + rewrite Hother in H1, H2 by done. by eapply Hei.
Qed.

Lemma run_arrays_apart evs : ∀ w w',
  arrays_apart w → run w evs = Some w' → arrays_apart w'.
Proof.
  induction evs as [|[env u] evs IH]; intros w w' Hw; simpl.
  - by intros [= <-].
  - destruct (handle_update env u w) as [w1 rs|] eqn:Hu; [|done].
    apply IH. by eapply handle_update_arrays_apart.
Qed.

(** X4: sessions are isolated.  In every state the bot reaches from the
    empty one, an update of one user leaves the session of any other user as
    it is, and with it what that session has collected: the arrays behind
    [streamingLinks] and [episodes] are never shared between two sessions,
    so a push for one user is not seen by another. *)
Theorem other_sessions_untouched evs w env u w' rs v sv :
  run initial_world evs = Some w → handle_update env u w = Done w' rs →
  v ≠ sender u → userStates w !! v = Some sv →
  userStates w' !! v = Some sv ∧ collected w' sv = collected w sv.
Proof.
  intros Hrun H Hv Hsv.
  destruct (run_arrays_apart evs _ _ arrays_apart_initial Hrun)
    as (Hl & He & Hli & Hei).
  destruct (handle_update_footprint _ _ _ _ _ H) as (Hfl & Hfe & _).
  split; [by rewrite (handle_update_other _ _ _ _ _ v H)|].
  unfold collected, deref. f_equal.
  - destruct (streamingLinks sv) as [l|] eqn:El; [|done].
    rewrite Hfl; [done|by eapply Hl|].
    intros st Hst E. apply Hv. by eapply Hli.
  - destruct (episodes sv) as [l|] eqn:El; [|done].
    rewrite Hfe; [done|by eapply He|].
    intros st Hst E. apply Hv. by eapply Hei.
Qed.

Lemma other_sessions_untouched_witness :
  run initial_world two_users = Some (world_after two_users)
  ∧ handle_update answers (MessageUpdate 8 (text_message "S2"))
      (world_after two_users)
    = Done (world_after (two_users ++ [says 8 "S2"])) [AskThumbnail]
  ∧ 7 ≠ sender (MessageUpdate 8 (text_message "S2"))
  ∧ userStates (world_after two_users) !! 7 = Some movie_at_links
  ∧ userStates (world_after (two_users ++ [says 8 "S2"])) !! 7
    = Some movie_at_links
  ∧ collected (world_after (two_users ++ [says 8 "S2"])) movie_at_links
    = collected (world_after two_users) movie_at_links
  ∧ collected (world_after two_users) movie_at_links = (["http://a"%string], []).
Proof.
  assert (run initial_world two_users = Some (world_after two_users))
    as Hrun by (vm_compute; reflexivity).
  assert (handle_update answers (MessageUpdate 8 (text_message "S2"))
            (world_after two_users)
          = Done (world_after (two_users ++ [says 8 "S2"])) [AskThumbnail])
    as Hu by (vm_compute; reflexivity).
  assert (7 ≠ sender (MessageUpdate 8 (text_message "S2"))) as Hne by done.
  assert (userStates (world_after two_users) !! 7 = Some movie_at_links)
    as Hst by (vm_compute; reflexivity).
  split_and!; [exact Hrun|exact Hu|exact Hne|exact Hst| | |vm_compute; reflexivity].
  - exact (proj1 (other_sessions_untouched _ _ _ _ _ _ _ _ Hrun Hu Hne Hst)).
  - exact (proj2 (other_sessions_untouched _ _ _ _ _ _ _ _ Hrun Hu Hne Hst)).
Defined.

(** ** Whole conversations *)

Lemma with_streamingLinks_id st l :
  streamingLinks st = Some l → with_streamingLinks l st = st.
Proof. destruct st. simpl. by intros ->. Qed.

Lemma tells_on_message userId e w :
  reaches_on_message (text_message e.2) = true →
  handle_update e.1 (tells userId e).2 w
  = on_message e.1 userId (text_message e.2) w.
Proof. intros H. simpl. by apply handle_update_on_message. Qed.

Lemma plain_text_truthy t :
  plain_text t = true →
  truthy_text (text_message t) = Some t
  ∧ reaches_on_message (text_message t) = true.
Proof.
  unfold plain_text. intros H. apply andb_prop in H as [Ht Hr].
  apply andb_prop in Hr as [_ Hr].
  split; [|done]. unfold truthy_text. simpl. by rewrite Ht.
Qed.

(** The links sent in [movie_links] are appended, in order, to the array of
    the session; nothing else changes. *)
Lemma links_collected userId st l ts : ∀ w,
  userStates w !! userId = Some st → step st = step_movie_links →
  streamingLinks st = Some l →
  forallb (λ e, link_text e.2) ts = true →
  ∃ w', run w (tells userId <$> ts) = Some w'
        ∧ userStates w' = userStates w ∧ contents w' = contents w
        ∧ episodeArrays w' = episodeArrays w
        ∧ deref (linkArrays w') l = deref (linkArrays w) l ++ ts.*2.
Proof.
  induction ts as [|[env t] ts IH]; intros w Hst Hstep Hl Hall.
  { exists w. simpl. by rewrite app_nil_r. }
  simpl in Hall. apply andb_prop in Hall as [Ht Hall].
  unfold link_text in Ht. apply andb_prop in Ht as [Hp Hd].
  apply negb_true_iff, bool_decide_eq_false_1 in Hd.
  destruct (plain_text_truthy t Hp) as [Htr Hr].
  rewrite fmap_cons. cbn [run tells fst snd].
  rewrite handle_update_on_message by done.
  unfold on_message. rewrite Hst, Hstep. unfold case_movie_links.
  rewrite decide_False by (simpl; congruence).
  rewrite Htr, Hl. cbn [or_new]. rewrite with_streamingLinks_id by done.
  set (w1 := set_state userId st
               (set_linkArrays (push l t (linkArrays w)) w)).
  assert (userStates w1 = userStates w) as Hu1.
  { subst w1. simpl. by apply insert_id. }
  destruct (IH w1) as (w' & Hrun & Hu & Hc & He & Harr); try done.
  { by rewrite Hu1. }
  exists w'. split; [done|]. rewrite Hu, Hc, He, Harr. split_and!; try done.
  subst w1. simpl. rewrite deref_push. by rewrite <-app_assoc.
Qed.

(** X7: the movie conversation, from any state.  The user picks 'Add
    Movie', sends a title, a photo that is downloaded, then one link or
    more, then [/done] while the database answers: the collection gets one
    new record, a movie with that title, the path of the downloaded file
    under [/thumbnails/], and exactly the links sent, in their order; the
    session of the user is gone, and no other session is touched.  Title
    and links are free text: not empty, no bot command (they do not begin
    with [/]) and no menu entry. *)
Theorem movie_conversation w userId env0 env1 env2 env3 t sizes filename ts :
  plain_text t = true → sizes ≠ [] → download env2 = Some filename →
  ts ≠ [] → forallb (λ e, link_text e.2) ts = true → db_error env3 = None →
  ∃ w',
    run w ([tells userId (env0, "🎬 Add Movie"%string);
            tells userId (env1, t);
            (env2, MessageUpdate userId {| text := None; photo := Some sizes |})]
           ++ (tells userId <$> ts)
           ++ [tells userId (env3, "/done"%string)])
    = Some w'
    ∧ contents w'
      = <[fresh (dom (contents w)) :=
            {| doc_type := movie; doc_title := Some t;
               doc_thumbnail := Some ("/thumbnails/" ++ filename)%string;
               doc_streamingLinks := ts.*2; doc_episodes := [] |}]>
          (contents w)
    ∧ userStates w' = delete userId (userStates w)
    ∧ episodeArrays w' = episodeArrays w.
Proof.
  intros Ht Hsizes Hdl Hts Hall Hdb.
  destruct (plain_text_truthy t Ht) as [Htr Hr].
  set (l := fresh (dom (linkArrays w))).
  set (st0 := {| type := movie; step := step_title; title := None;
                 thumbnail := None; streamingLinks := Some l; episodes := None;
                 episodeCount := None; currentEpisode := None;
                 currentEpisodeTitle := None |}).
  set (w0 := set_state userId st0 (set_linkArrays (<[l := []]> (linkArrays w)) w)).
  set (st1 := with_step step_thumbnail (with_title t st0)).
  set (st2 := with_step step_movie_links
                (with_thumbnail ("/thumbnails/" ++ filename) st1)).
  set (w2 := set_state userId st2 (set_state userId st1 w0)).
  assert (run w [tells userId (env0, "🎬 Add Movie"%string);
                 tells userId (env1, t);
                 (env2, MessageUpdate userId
                          {| text := None; photo := Some sizes |})]
          = Some w2) as Hrun1.
  { cbn [run tells fst snd].
    change (handle_update env0
              (MessageUpdate userId (text_message "🎬 Add Movie")) w)
      with (Done w0 [AskMovieTitle]).
    cbv iota beta. rewrite handle_update_on_message by done.
    unfold on_message at 1. subst w0. cbn [userStates set_state].
    rewrite lookup_insert_eq. cbn [step st0]. unfold case_title. rewrite Htr.
    fold st1.
    change (handle_update env2 ?u ?x) with (on_message env2 userId
      {| text := None; photo := Some sizes |} x).
    unfold on_message. cbn [userStates set_state].
    rewrite lookup_insert_eq. cbn [step st1 with_step]. unfold case_thumbnail.
    cbn [photo]. destruct (last sizes) eqn:Hlast.
    2:{ by apply last_None in Hlast. }
    by rewrite Hdl. }
  assert (userStates w2 !! userId = Some st2) as Hst2.
  { subst w2. simpl. apply lookup_insert_eq. }
  destruct (links_collected userId st2 l ts w2 Hst2 eq_refl eq_refl Hall)
    as (w3 & Hrun2 & Hu3 & Hc3 & He3 & Harr3).
  assert (deref (linkArrays w2) l = []) as Hnil.
  { subst w2 w0. simpl. unfold deref. by rewrite lookup_insert_eq. }
  rewrite Hnil in Harr3. simpl in Harr3.
  rewrite run_app, Hrun1. cbn [mbind option_bind]. rewrite run_app, Hrun2.
  cbn [mbind option_bind run tells fst snd].
  rewrite handle_update_on_message by done.
  unfold on_message. rewrite Hu3, Hst2. cbn [step st2 with_step].
  unfold case_movie_links. rewrite decide_True by done.
  cbn [streamingLinks st2 with_step with_thumbnail st1 with_title st0].
  rewrite Harr3.
  destruct ts as [|e ts]; [done|]. cbn [length fmap list_fmap Nat.eqb].
  assert (required (Some t) = true) as Hreq.
  { unfold plain_text in Ht. by apply andb_prop in Ht as [? _]. }
  rewrite save_ok; [|exact Hreq|reflexivity|exact Hdb]. rewrite Hc3.
  eexists. split; [done|]. cbn [contents userStates episodeArrays delete_state
                                set_contents].
  split; [done|]. split; [|by rewrite He3].
  rewrite Hu3. subst w2 w0. cbn [userStates set_state set_linkArrays].
  by rewrite !delete_insert_eq.
Qed.

Lemma movie_conversation_witness :
  plain_text "Test" = true
  ∧ ["small"%string; "large"%string] ≠ []
  ∧ download answers = Some "thumbnail_1.jpg"%string
  ∧ [(answers, "http://a"%string); (db_down, "http://b"%string)] ≠ []
  ∧ forallb (λ e : Env * string, link_text e.2)
      [(answers, "http://a"%string); (db_down, "http://b"%string)] = true
  ∧ db_error answers = None
  ∧ ∃ w',
      run (world_after series_to_count)
        ([tells 7 (db_down, "🎬 Add Movie"%string); tells 7 (answers, "Test"%string);
          (answers, MessageUpdate 7
                      {| text := None;
                         photo := Some ["small"%string; "large"%string] |})]
         ++ (tells 7 <$> [(answers, "http://a"%string); (db_down, "http://b"%string)])
         ++ [tells 7 (answers, "/done"%string)])
      = Some w'
      ∧ contents w'
        = <[fresh (dom (contents (world_after series_to_count))) :=
              {| doc_type := movie; doc_title := Some "Test"%string;
                 doc_thumbnail := Some ("/thumbnails/" ++ "thumbnail_1.jpg")%string;
                 doc_streamingLinks :=
                   [(answers, "http://a"%string); (db_down, "http://b"%string)].*2;
                 doc_episodes := [] |}]>
            (contents (world_after series_to_count))
      ∧ userStates w' = delete 7 (userStates (world_after series_to_count))
      ∧ episodeArrays w' = episodeArrays (world_after series_to_count).
Proof.
  assert (["small"%string; "large"%string] ≠ []) as Hs by done.
  assert ([(answers, "http://a"%string); (db_down, "http://b"%string)] ≠ [])
    as Hts by done.
  split_and!; [reflexivity|exact Hs|reflexivity|exact Hts|reflexivity|reflexivity|].
  exact (movie_conversation (world_after series_to_count) 7 db_down answers
           answers answers "Test" ["small"%string; "large"%string]
           "thumbnail_1.jpg"
           [(answers, "http://a"%string); (db_down, "http://b"%string)]
           eq_refl Hs eq_refl Hts eq_refl eq_refl).
Defined.

Lemma succ_exact c : 0 ≤ c < 2 ^ 53 → JS.succ (JS.Fin c) = JS.Fin (c + 1).
Proof. intros Hc. simpl. apply to_double_exact. lia. Qed.

(** The episodes sent in the loop, from episode [c] up to the last one [n],
    are pushed with the numbers [c..n]; the link of the last one saves the
    record and ends the session. *)
Lemma episodes_collected userId l n eps : ∀ c w st,
  userStates w !! userId = Some st → step st = step_episode_title →
  episodes st = Some l → currentEpisode st = Some (JS.Fin c) →
  episodeCount st = Some (JS.Fin n) →
  required (title st) = true → required (thumbnail st) = true →
  1 ≤ c → c + Z.of_nat (length eps) - 1 = n → n ≤ 2 ^ 53 → eps ≠ [] →
  forallb (λ e, plain_text e.1.2 && plain_text e.2.2) eps = true →
  (∀ e, last eps = Some e → db_error e.2.1 = None) →
  ∃ w', run w (concat (tells_episode userId <$> eps)) = Some w'
        ∧ userStates w' = delete userId (userStates w)
        ∧ contents w'
          = <[fresh (dom (contents w)) :=
                {| doc_type := type st; doc_title := title st;
                   doc_thumbnail := thumbnail st; doc_streamingLinks := [];
                   doc_episodes := deref (episodeArrays w) l
                                   ++ episodes_from c eps |}]> (contents w)
        ∧ linkArrays w' = linkArrays w.
Proof.
  induction eps as [|[[e1 t1] [e2 t2]] eps IH];
    intros c w st Hst Hstep Hl Hc Hn Hrt Hrth Hc1 Hlen Hn53 Hne Hall Hlast;
    [done|].
  simpl in Hall. apply andb_prop in Hall as [Hp Hall].
  apply andb_prop in Hp as [Hp1 Hp2].
  destruct (plain_text_truthy t1 Hp1) as [Htr1 Hr1].
  destruct (plain_text_truthy t2 Hp2) as [Htr2 Hr2].
  rewrite fmap_cons. cbn [concat tells_episode tells fst snd app run].
  rewrite handle_update_on_message by done.
  unfold on_message at 1. rewrite Hst, Hstep. unfold case_episode_title.
  rewrite Htr1.
  set (st1 := with_step step_episode_link (with_currentEpisodeTitle t1 st)).
  rewrite handle_update_on_message by done.
  unfold on_message at 1. cbn [userStates set_state].
  rewrite lookup_insert_eq. cbn [step st1 with_step].
  unfold case_episode_link. rewrite Htr2.
  cbn [episodes st1 with_step with_currentEpisodeTitle currentEpisode
       episodeCount currentEpisodeTitle title thumbnail type].
  rewrite Hl, Hc, Hn. cbn [or_new JS.to_number JS.ge].
  set (ep := {| episodeNumber := Some (JS.Fin c); ep_title := Some t1;
                streamingLink := t2 |}).
  rewrite deref_push.
  destruct eps as [|e' eps'].
  - (* the last episode *)
    simpl in Hlen. assert (c = n) as -> by lia.
    rewrite Z.leb_refl.
    rewrite save_ok; [|done|done|].
    2:{ by apply (Hlast ((e1, t1), (e2, t2))). }
    eexists. split; [done|]. simpl. split_and!; try done.
    by rewrite delete_insert_eq.
  - (* more episodes follow *)
    assert (c < n) as Hcn by (simpl in Hlen; lia).
    destruct (Z.leb_spec n c) as [?|_]; [lia|].
    cbn [JS.to_number]. rewrite succ_exact by lia.
    set (st2 := with_step step_episode_title
                  (with_currentEpisode (JS.Fin (c + 1)) (with_episodes l st1))).
    set (w2 := set_state userId st2
                 (set_episodeArrays
                    (push l ep (episodeArrays (set_state userId st1 w)))
                    (set_state userId st1 w))).
    destruct (IH (c + 1) w2 st2) as (w' & Hrun & Hu & Hcont & Hlinks);
      try done; try lia;
      try (subst w2; simpl; by apply lookup_insert_eq);
      try (cbn [length] in Hlen |- *; lia);
      try (intros e He; apply Hlast; by rewrite last_cons_cons).
    exists w'. split; [done|]. split_and!.
    + rewrite Hu. subst w2. simpl. by rewrite !delete_insert_eq.
    + rewrite Hcont. subst w2. simpl. rewrite deref_push.
      by rewrite <-app_assoc.
    + by rewrite Hlinks.
Qed.

(** X8: the web series conversation, from any state.  The user picks 'Add
    Web Series', sends a title, a photo that is downloaded, a count that
    reads as the number [n >= 1] of episodes, and then for each episode its
    title and its link, the database answering at the last link: the
    collection gets one new record, a web series with that title and
    thumbnail path whose episodes are the [n] pairs sent, in their order,
    numbered [1..n]; the session of the user is gone, and no other session
    is touched.  The texts sent are free text: not empty, no bot command
    (they do not begin with [/]) and no menu entry. *)
Theorem series_conversation w userId env0 env1 env2 env3 t sizes filename ct eps :
  plain_text t = true → sizes ≠ [] → download env2 = Some filename →
  plain_text ct = true → JS.isNaN ct = false →
  JS.parseInt ct = JS.Fin (Z.of_nat (length eps)) →
  eps ≠ [] → Z.of_nat (length eps) ≤ 2 ^ 53 →
  forallb (λ e, plain_text e.1.2 && plain_text e.2.2) eps = true →
  (∀ e, last eps = Some e → db_error e.2.1 = None) →
  ∃ w',
    run w ([tells userId (env0, "📺 Add Web Series"%string);
            tells userId (env1, t);
            (env2, MessageUpdate userId {| text := None; photo := Some sizes |});
            tells userId (env3, ct)]
           ++ concat (tells_episode userId <$> eps))
    = Some w'
    ∧ contents w'
      = <[fresh (dom (contents w)) :=
            {| doc_type := webseries; doc_title := Some t;
               doc_thumbnail := Some ("/thumbnails/" ++ filename)%string;
               doc_streamingLinks := []; doc_episodes := episodes_from 1 eps |}]>
          (contents w)
    ∧ userStates w' = delete userId (userStates w)
    ∧ linkArrays w' = linkArrays w.
Proof.
  intros Ht Hsizes Hdl Hct Hnan Hparse Heps Hn53 Hall Hlast.
  destruct (plain_text_truthy t Ht) as [Htr Hr].
  destruct (plain_text_truthy ct Hct) as [Hctr Hcr].
  set (l := fresh (dom (episodeArrays w))).
  set (st0 := {| type := webseries; step := step_title; title := None;
                 thumbnail := None; streamingLinks := None; episodes := Some l;
                 episodeCount := None; currentEpisode := None;
                 currentEpisodeTitle := None |}).
  set (w0 := set_state userId st0
               (set_episodeArrays (<[l := []]> (episodeArrays w)) w)).
  set (st1 := with_step step_thumbnail (with_title t st0)).
  set (st2 := with_step step_episode_count
                (with_thumbnail ("/thumbnails/" ++ filename) st1)).
  set (st3 := with_step step_episode_title
                (with_currentEpisode (JS.Fin 1)
                   (with_episodeCount (JS.Fin (Z.of_nat (length eps))) st2))).
  set (w3 := set_state userId st3
               (set_state userId st2 (set_state userId st1 w0))).
  assert (run w [tells userId (env0, "📺 Add Web Series"%string);
                 tells userId (env1, t);
                 (env2, MessageUpdate userId
                          {| text := None; photo := Some sizes |});
                 tells userId (env3, ct)]
          = Some w3) as Hrun1.
  { cbn [run tells fst snd].
    change (handle_update env0
              (MessageUpdate userId (text_message "📺 Add Web Series")) w)
      with (Done w0 [AskSeriesTitle]).
    cbv iota beta. rewrite handle_update_on_message by done.
    unfold on_message at 1. subst w0. cbn [userStates set_state].
    rewrite lookup_insert_eq. cbn [step st0]. unfold case_title. rewrite Htr.
    fold st1.
    change (handle_update env2 ?u ?x) with (on_message env2 userId
      {| text := None; photo := Some sizes |} x).
    unfold on_message at 1. cbn [userStates set_state].
    rewrite lookup_insert_eq. cbn [step st1 with_step]. unfold case_thumbnail.
    cbn [photo]. destruct (last sizes) eqn:Hl.
    2:{ by apply last_None in Hl. }
    rewrite Hdl. cbn [type st1 with_step with_title st0]. fold st2.
    rewrite handle_update_on_message by done.
    unfold on_message. cbn [userStates set_state].
    rewrite lookup_insert_eq. cbn [step st2 with_step].
    unfold case_episode_count. rewrite Hctr, Hnan, Hparse. done. }
  assert (required (Some t) = true) as Hreq.
  { unfold plain_text in Ht. by apply andb_prop in Ht as [? _]. }
  destruct (episodes_collected userId l (Z.of_nat (length eps)) eps 1 w3 st3)
    as (w' & Hrun & Hu & Hcont & Hlinks); try done; try lia.
  { subst w3. simpl. apply lookup_insert_eq. }
  exists w'. rewrite run_app, Hrun1. cbn [mbind option_bind].
  split; [done|]. split_and!.
  - rewrite Hcont. subst w3 w0. simpl. unfold deref.
    by rewrite lookup_insert_eq.
  - rewrite Hu. subst w3 w0. simpl. by rewrite !delete_insert_eq.
  - by rewrite Hlinks.
Qed.

Lemma series_conversation_witness :
  plain_text "S1" = true
  ∧ ["small"%string; "large"%string] ≠ []
  ∧ download answers = Some "thumbnail_1.jpg"%string
  ∧ plain_text " 2 " = true ∧ JS.isNaN " 2 " = false
  ∧ JS.parseInt " 2 "
    = JS.Fin (Z.of_nat (length [((answers, "Ep1"%string), (db_down, "linkA"%string));
                                ((db_down, "Ep2"%string), (answers, "linkB"%string))]))
  ∧ [((answers, "Ep1"%string), (db_down, "linkA"%string));
     ((db_down, "Ep2"%string), (answers, "linkB"%string))] ≠ []
  ∧ Z.of_nat (length [((answers, "Ep1"%string), (db_down, "linkA"%string));
                      ((db_down, "Ep2"%string), (answers, "linkB"%string))])
    ≤ 2 ^ 53
  ∧ forallb (λ e : (Env * string) * (Env * string),
               plain_text e.1.2 && plain_text e.2.2)
      [((answers, "Ep1"%string), (db_down, "linkA"%string));
       ((db_down, "Ep2"%string), (answers, "linkB"%string))] = true
  ∧ (∀ e, last [((answers, "Ep1"%string), (db_down, "linkA"%string));
                ((db_down, "Ep2"%string), (answers, "linkB"%string))] = Some e →
          db_error e.2.1 = None)
  ∧ ∃ w',
      run (world_after movie_one_link)
        ([tells 7 (answers, "📺 Add Web Series"%string);
          tells 7 (answers, "S1"%string);
          (answers, MessageUpdate 7
                      {| text := None;
                         photo := Some ["small"%string; "large"%string] |});
          tells 7 (answers, " 2 "%string)]
         ++ concat (tells_episode 7 <$>
                      [((answers, "Ep1"%string), (db_down, "linkA"%string));
                       ((db_down, "Ep2"%string), (answers, "linkB"%string))]))
      = Some w'
      ∧ contents w'
        = <[fresh (dom (contents (world_after movie_one_link))) :=
              {| doc_type := webseries; doc_title := Some "S1"%string;
                 doc_thumbnail := Some ("/thumbnails/" ++ "thumbnail_1.jpg")%string;
                 doc_streamingLinks := [];
                 doc_episodes :=
                   episodes_from 1
                     [((answers, "Ep1"%string), (db_down, "linkA"%string));
                      ((db_down, "Ep2"%string), (answers, "linkB"%string))] |}]>
            (contents (world_after movie_one_link))
      ∧ userStates w' = delete 7 (userStates (world_after movie_one_link))
      ∧ linkArrays w' = linkArrays (world_after movie_one_link).
Proof.
  assert (["small"%string; "large"%string] ≠ []) as Hs by done.
  assert ([((answers, "Ep1"%string), (db_down, "linkA"%string));
           ((db_down, "Ep2"%string), (answers, "linkB"%string))] ≠ [])
    as Heps by done.
  assert (Z.of_nat (length [((answers, "Ep1"%string), (db_down, "linkA"%string));
                            ((db_down, "Ep2"%string), (answers, "linkB"%string))])
          ≤ 2 ^ 53) as Hn by (simpl; lia).
  assert (∀ e, last [((answers, "Ep1"%string), (db_down, "linkA"%string));
                     ((db_down, "Ep2"%string), (answers, "linkB"%string))]
               = Some e → db_error e.2.1 = None) as Hlast
    by (by intros e [= <-]).
  split_and!; [reflexivity|exact Hs|reflexivity|reflexivity|reflexivity
              |reflexivity|exact Heps|exact Hn|reflexivity|exact Hlast|].
  exact (series_conversation (world_after movie_one_link) 7 answers answers
           answers answers "S1" ["small"%string; "large"%string]
           "thumbnail_1.jpg" " 2 "
           [((answers, "Ep1"%string), (db_down, "linkA"%string));
            ((db_down, "Ep2"%string), (answers, "linkB"%string))]
           eq_refl Hs eq_refl eq_refl eq_refl eq_refl Heps Hn eq_refl Hlast).
Defined.

(** ** The life of a session *)

Lemma session_gone_saved env u w w' rs st :
  handle_update env u w = Done w' rs →
  userStates w !! sender u = Some st → userStates w' !! sender u = None →
  ∃ d, contents w' = <[fresh (dom (contents w)) := d]> (contents w).
Proof.
  intros H Hst Hgone.
  destruct u as [userId m|userId data]; simpl in Hst, Hgone; revert Hgone;
    split_handler; rewrite ?lookup_insert_eq; intros Hgone; simplify_eq/=;
    try congruence;
    match goal with
    | Hs : save _ _ _ = Some _ |- _ => apply save_insert in Hs as [_ ->]
    end; eauto.
Qed.

Lemma session_opened env u w w' rs :
  handle_update env u w = Done w' rs →
  userStates w !! sender u = None → is_Some (userStates w' !! sender u) →
  restarts (sender u) u = true.
Proof.
  intros H Hn [st' Hs'].
  destruct u as [userId m|userId data]; simpl in *.
  - unfold opens_session. rewrite bool_decide_eq_true_2 by done.
    destruct (is_start_command m); [simplify_eq; try congruence|].
    destruct (hears "🎬 Add Movie" m); [done|].
    destruct (hears "📺 Add Web Series" m); [done|].
    destruct (hears "📋 View Content" m).
    { unfold hears_view_content in H. repeat case_match; simplify_eq;
        try congruence. }
    destruct (hears "✏️ Edit Content" m).
    { unfold hears_edit_content in H. repeat case_match; simplify_eq;
        try congruence. }
    unfold on_message in H. rewrite Hn in H. simplify_eq; try congruence.
  - unfold on_callback_query in H. repeat case_match; simplify_eq; try congruence.
Qed.

(** X10: a session begins and ends in two ways only.  A user without
    session gets one only by picking 'Add Movie' or 'Add Web Series'
    herself; and the session of a user disappears only when an update of
    that user has saved its record (the document of a persist point of that
    session, inserted under a free id). *)
Theorem session_begins_and_ends env u w w' rs v :
  handle_update env u w = Done w' rs →
  (userStates w !! v = None → is_Some (userStates w' !! v) →
   restarts v u = true)
  ∧ (∀ st, userStates w !! v = Some st → userStates w' !! v = None →
           ∃ m d, u = MessageUpdate v m ∧ persist_point st m w = Some d
                  ∧ contents w !! fresh (dom (contents w)) = None
                  ∧ contents w' = <[fresh (dom (contents w)) := d]> (contents w)).
Proof.
  intros H. destruct (decide (v = sender u)) as [->|Hne].
  2:{ rewrite (handle_update_other _ _ _ _ _ _ H Hne). split.
      - intros ->. by intros [? ?].
      - intros st ->. done. }
  split; [by apply (session_opened env u w w' rs)|].
  intros st Hst Hgone.
  destruct (session_gone_saved _ _ _ _ _ _ H Hst Hgone) as [d Hc].
  assert (contents w !! fresh (dom (contents w)) = None) as Hfree
    by apply not_elem_of_dom, is_fresh.
  assert (contents w' !! fresh (dom (contents w)) = Some d) as Hd
    by (rewrite Hc; apply lookup_insert_eq).
  destruct (persisted_at_persist_point _ _ _ _ _ _ _ H Hfree Hd)
    as (userId & m & st' & -> & Hst' & Hp).
  simpl in Hst. rewrite Hst in Hst'. injection Hst' as <-.
  by exists m, d.
Qed.

Lemma session_begins_and_ends_witness :
  handle_update answers (MessageUpdate 7 (text_message "/done"))
    (world_after movie_one_link) = Done (world_after movie_done) [MovieAdded]
  ∧ userStates (world_after movie_one_link) !! 7 = Some movie_at_links
  ∧ userStates (world_after movie_done) !! 7 = None
  ∧ ∃ m d, MessageUpdate 7 (text_message "/done") = MessageUpdate 7 m
           ∧ persist_point movie_at_links m (world_after movie_one_link) = Some d
           ∧ contents (world_after movie_one_link)
               !! fresh (dom (contents (world_after movie_one_link))) = None
           ∧ contents (world_after movie_done)
             = <[fresh (dom (contents (world_after movie_one_link))) := d]>
                 (contents (world_after movie_one_link)).
Proof.
  assert (handle_update answers (MessageUpdate 7 (text_message "/done"))
            (world_after movie_one_link)
          = Done (world_after movie_done) [MovieAdded])
    as Hu by (vm_compute; reflexivity).
  assert (userStates (world_after movie_one_link) !! 7 = Some movie_at_links)
    as Hst by (vm_compute; reflexivity).
  assert (userStates (world_after movie_done) !! 7 = None)
    as Hgone by (vm_compute; reflexivity).
  split_and!; [exact Hu|exact Hst|exact Hgone|].
  exact (proj2 (session_begins_and_ends _ _ _ _ _ 7 Hu) _ Hst Hgone).
Defined.

(** ** Counts below one *)

(** X11: a count that reads as 1, as 0 or as a negative integer gives a
    series of one episode: after such a count, the first title and link
    already save the record, with the single episode numbered 1, and end the
    session.  Count, title and link are free text: not empty, no bot
    command (they do not begin with [/]) and no menu entry. *)
Theorem count_below_one env1 env2 env3 userId st l ct t1 t2 n w :
  userStates w !! userId = Some st → step st = step_episode_count →
  episodes st = Some l → deref (episodeArrays w) l = [] →
  required (title st) = true → required (thumbnail st) = true →
  plain_text ct = true → JS.isNaN ct = false → JS.parseInt ct = JS.Fin n →
  n ≤ 1 → plain_text t1 = true → plain_text t2 = true →
  db_error env3 = None →
  ∃ w',
    run w [tells userId (env1, ct); tells userId (env2, t1);
           tells userId (env3, t2)] = Some w'
    ∧ contents w'
      = <[fresh (dom (contents w)) :=
            {| doc_type := type st; doc_title := title st;
               doc_thumbnail := thumbnail st; doc_streamingLinks := [];
               doc_episodes := [{| episodeNumber := Some (JS.Fin 1);
                                   ep_title := Some t1;
                                   streamingLink := t2 |}] |}]> (contents w)
    ∧ userStates w' = delete userId (userStates w).
Proof.
  intros Hst Hstep Hl Harr Hrt Hrth Hct Hnan Hparse Hn Ht1 Ht2 Hdb.
  destruct (plain_text_truthy ct Hct) as [Hctr Hcr].
  destruct (plain_text_truthy t1 Ht1) as [Htr1 Hr1].
  destruct (plain_text_truthy t2 Ht2) as [Htr2 Hr2].
  cbn [run tells fst snd].
  rewrite handle_update_on_message by done.
  unfold on_message at 1. rewrite Hst, Hstep. unfold case_episode_count.
  rewrite Hctr, Hnan, Hparse. cbn [negb].
  rewrite handle_update_on_message by done.
  unfold on_message at 1. cbn [userStates set_state].
  rewrite lookup_insert_eq. cbn [step with_step]. unfold case_episode_title.
  rewrite Htr1.
  rewrite handle_update_on_message by done.
  unfold on_message at 1. cbn [userStates set_state].
  rewrite lookup_insert_eq. cbn [step with_step]. unfold case_episode_link.
  rewrite Htr2. simpl. rewrite Hl. simpl.
  destruct (Z.leb_spec n 1) as [_|?]; [|lia].
  rewrite deref_push, Harr. simpl.
  rewrite save_ok by done.
  eexists. split; [done|]. simpl. split; [done|].
  by rewrite !delete_insert_eq.
Qed.

Lemma count_below_one_witness :
  userStates (world_after series_to_count) !! 7 = Some series_at_count
  ∧ deref (episodeArrays (world_after series_to_count)) 1%positive = []
  ∧ plain_text "-3" = true ∧ JS.isNaN "-3" = false
  ∧ JS.parseInt "-3" = JS.Fin (-3) ∧ -3 ≤ 1
  ∧ plain_text "Ep1" = true ∧ plain_text "linkA" = true
  ∧ ∃ w',
      run (world_after series_to_count)
        [tells 7 (answers, "-3"%string); tells 7 (answers, "Ep1"%string);
         tells 7 (answers, "linkA"%string)] = Some w'
      ∧ contents w'
        = <[fresh (dom (contents (world_after series_to_count))) :=
              {| doc_type := type series_at_count;
                 doc_title := title series_at_count;
                 doc_thumbnail := thumbnail series_at_count;
                 doc_streamingLinks := [];
                 doc_episodes := [{| episodeNumber := Some (JS.Fin 1);
                                     ep_title := Some "Ep1"%string;
                                     streamingLink := "linkA" |}] |}]>
            (contents (world_after series_to_count))
      ∧ userStates w' = delete 7 (userStates (world_after series_to_count)).
Proof.
  assert (userStates (world_after series_to_count) !! 7 = Some series_at_count)
    as Hst by (vm_compute; reflexivity).
  assert (deref (episodeArrays (world_after series_to_count)) 1%positive = [])
    as Harr by (vm_compute; reflexivity).
  assert (-3 ≤ 1) as Hn by lia.
  split_and!; [exact Hst|exact Harr|reflexivity|reflexivity|reflexivity|exact Hn
              |reflexivity|reflexivity|].
  exact (count_below_one answers answers answers 7 series_at_count 1%positive
           "-3" "Ep1" "linkA" (-3) (world_after series_to_count)
           Hst eq_refl eq_refl Harr eq_refl eq_refl eq_refl eq_refl eq_refl Hn
           eq_refl eq_refl eq_refl).
Defined.

(** ** The running count of links *)

(** X12: in every state the bot reaches, a link sent in [movie_links] is
    appended to the links the session has collected and is answered with
    their new number; session, episodes and collection stay as they are.
    The link is free text: not empty, no bot command (it does not begin
    with [/]) and no menu entry. *)
Theorem link_added_count evs w env userId st t :
  run initial_world evs = Some w →
  userStates w !! userId = Some st → step st = step_movie_links →
  link_text t = true →
  ∃ w',
    handle_update env (MessageUpdate userId (text_message t)) w
    = Done w' [LinkAdded (S (length (collected w st).1))]
    ∧ userStates w' = userStates w
    ∧ (collected w' st).1 = (collected w st).1 ++ [t]
    ∧ episodeArrays w' = episodeArrays w ∧ contents w' = contents w.
Proof.
  intros Hrun Hst Hstep Ht.
  destruct (run_world_ok _ _ _ world_ok_initial Hrun) as [Hok _].
  pose proof (Hok _ _ Hst) as Hsok. unfold state_ok in Hsok.
  destruct (type st); [|naive_solver].
  destruct Hsok as ([l Hl] & _).
  unfold link_text in Ht. apply andb_prop in Ht as [Hp Hd].
  apply negb_true_iff, bool_decide_eq_false_1 in Hd.
  destruct (plain_text_truthy t Hp) as [Htr Hr].
  rewrite handle_update_on_message by done.
  unfold on_message. rewrite Hst, Hstep. unfold case_movie_links.
  rewrite decide_False by (simpl; congruence).
  rewrite Htr, Hl. cbn [or_new]. rewrite with_streamingLinks_id by done.
  eexists. unfold collected. rewrite Hl. cbn [fst set_state set_linkArrays
    linkArrays userStates episodeArrays contents].
  rewrite deref_push, length_app, Nat.add_1_r.
  split_and!; try done;
    first [by apply insert_id|simpl; by apply deref_push].
Qed.

Lemma link_added_count_witness :
  run initial_world movie_one_link = Some (world_after movie_one_link)
  ∧ userStates (world_after movie_one_link) !! 7 = Some movie_at_links
  ∧ step movie_at_links = step_movie_links
  ∧ link_text "http://b" = true
  ∧ (collected (world_after movie_one_link) movie_at_links).1 = ["http://a"%string]
  ∧ ∃ w',
      handle_update answers (MessageUpdate 7 (text_message "http://b"))
        (world_after movie_one_link)
      = Done w' [LinkAdded
                   (S (length (collected (world_after movie_one_link)
                                 movie_at_links).1))]
      ∧ userStates w' = userStates (world_after movie_one_link)
      ∧ (collected w' movie_at_links).1
        = (collected (world_after movie_one_link) movie_at_links).1
          ++ ["http://b"%string]
      ∧ episodeArrays w' = episodeArrays (world_after movie_one_link)
      ∧ contents w' = contents (world_after movie_one_link).
Proof.
  assert (run initial_world movie_one_link = Some (world_after movie_one_link))
    as Hrun by (vm_compute; reflexivity).
  assert (userStates (world_after movie_one_link) !! 7 = Some movie_at_links)
    as Hst by (vm_compute; reflexivity).
  split_and!; [exact Hrun|exact Hst|reflexivity|reflexivity
              |vm_compute; reflexivity|].
  exact (link_added_count movie_one_link (world_after movie_one_link) answers 7
           movie_at_links "http://b" Hrun Hst eq_refl eq_refl).
Defined.

(** ** The edit callback *)

Lemma cast_not_hex a s :
  JS.is_hex_digit (N_of_ascii a) = false → cast_ObjectId (String a s) = None.
Proof.
  intros H. unfold cast_ObjectId. cbn [JS.bytes list_ascii_of_string map forallb].
  fold (JS.bytes s). rewrite H. by rewrite andb_false_r.
Qed.

(** X13: the callback for data [edit_<id>] changes nothing and answers with
    the edit menu of the record stored under that id, with 'Content not
    found.' when the id is free, and with 'Error loading content for
    editing.' when the lookup fails; data without the prefix get no answer.
    The buttons of the edit menu itself ([edit_title_<id>],
    [edit_thumbnail_<id>], [edit_links_<id>], [edit_episodes_<id>]) are
    read as an id that does not cast, so they always get the error
    answer. *)
Theorem edit_callback env userId w :
  (∀ s oid, cast_ObjectId s = Some oid → db_error env = None →
     handle_update env (CallbackQueryUpdate userId ("edit_" ++ s)) w
     = Done w [match contents w !! oid with
               | Some d => EditMenu d
               | None => ContentNotFound
               end])
  ∧ (∀ s, cast_ObjectId s = None ∨ is_Some (db_error env) →
          handle_update env (CallbackQueryUpdate userId ("edit_" ++ s)) w
          = Done w [ErrLoading])
  ∧ (∀ data, after_edit_prefix data = None →
             handle_update env (CallbackQueryUpdate userId data) w = Done w [])
  ∧ (∀ s, handle_update env (CallbackQueryUpdate userId ("edit_title_" ++ s)) w
          = Done w [ErrLoading]
          ∧ handle_update env
              (CallbackQueryUpdate userId ("edit_thumbnail_" ++ s)) w
            = Done w [ErrLoading]
          ∧ handle_update env (CallbackQueryUpdate userId ("edit_links_" ++ s)) w
            = Done w [ErrLoading]
          ∧ handle_update env
              (CallbackQueryUpdate userId ("edit_episodes_" ++ s)) w
            = Done w [ErrLoading]).
Proof.
  assert (∀ s, after_edit_prefix ("edit_" ++ s) = Some s) as Hpre by done.
  assert (∀ s, cast_ObjectId s = None →
               handle_update env (CallbackQueryUpdate userId ("edit_" ++ s)) w
               = Done w [ErrLoading]) as Hcast.
  { intros s Hs. cbn. unfold on_callback_query, findById.
    by rewrite Hpre, Hs. }
  split_and!.
  - intros s oid Hs Hdb. cbn. unfold on_callback_query, findById.
    rewrite Hpre, Hs, Hdb. by destruct (contents w !! oid).
  - intros s [Hs|[msg Hdb]]; [by apply Hcast|].
    cbn. unfold on_callback_query, findById. rewrite Hpre, Hdb.
    by destruct (cast_ObjectId s).
  - intros data Hd. cbn. unfold on_callback_query. by rewrite Hd.
  - intros s. split_and!.
    + apply (Hcast ("title_" ++ s)%string). by apply cast_not_hex.
    + apply (Hcast ("thumbnail_" ++ s)%string). by apply cast_not_hex.
    + apply (Hcast ("links_" ++ s)%string). by apply cast_not_hex.
    + apply (Hcast ("episodes_" ++ s)%string).
      change ("episodes_" ++ s)%string
        with (String "e" (String "p" ("isodes_" ++ s)%string)).
      unfold cast_ObjectId.
      cbn [JS.bytes list_ascii_of_string map forallb].
      change (JS.is_hex_digit (N_of_ascii "p")) with false.
      cbn [andb]. by rewrite !andb_false_r.
Qed.

Lemma edit_callback_witness :
  (cast_ObjectId "000000000000000000000000" = Some 0%N
   ∧ db_error answers = None
   ∧ handle_update answers
       (CallbackQueryUpdate 7 ("edit_" ++ "000000000000000000000000"))
       (world_after movie_done)
     = Done (world_after movie_done)
         [match contents (world_after movie_done) !! 0%N with
          | Some d => EditMenu d
          | None => ContentNotFound
          end]
   ∧ contents (world_after movie_done) !! 0%N = Some test_movie)
  ∧ ((cast_ObjectId "xyz" = None ∨ is_Some (db_error answers))
     ∧ handle_update answers (CallbackQueryUpdate 7 ("edit_" ++ "xyz"))
         (world_after movie_done)
       = Done (world_after movie_done) [ErrLoading])
  ∧ (after_edit_prefix "other" = None
     ∧ handle_update answers (CallbackQueryUpdate 7 "other")
         (world_after movie_done) = Done (world_after movie_done) []).
Proof.
  destruct (edit_callback answers 7 (world_after movie_done))
    as (H1 & H2 & H3 & _).
  assert (cast_ObjectId "xyz" = None ∨ is_Some (db_error answers)) as Hx
    by (left; reflexivity).
  split_and!; [reflexivity|reflexivity| |vm_compute; reflexivity|exact Hx|
              |reflexivity|].
  - exact (H1 "000000000000000000000000"%string 0%N eq_refl eq_refl).
  - exact (H2 "xyz"%string Hx).
  - exact (H3 "other"%string eq_refl).
Defined.

(** ** The episode loop *)

Lemma loop_progress_log st arr g g' :
  titles g' = titles g → links g' = links g →
  loop_progress st arr g → loop_progress st arr g'.
Proof.
  unfold loop_progress. intros Ht Hl H. destruct (step st);
    rewrite ?Ht, ?Hl; done.
Qed.

Lemma log_step_continues userId u rs g :
  sender u = userId → restarts userId u = false →
  log_step userId u rs g = count_answer rs g.
Proof.
  intros Hs Hr. unfold log_step. by rewrite Hr, bool_decide_eq_true_2.
Qed.

Lemma log_step_other userId u rs g :
  sender u ≠ userId → log_step userId u rs g = g.
Proof.
  intros H. unfold log_step, restarts.
  rewrite (bool_decide_eq_false_2 (sender u = userId)) by done.
  destruct u as [v m|v data]; [|done]. simpl in H.
  by rewrite bool_decide_eq_false_2.
Qed.

Lemma restarts_message userId m :
  opens_session m = false → restarts userId (MessageUpdate userId m) = false.
Proof. intros H. simpl. rewrite H. apply andb_false_r. Qed.

(** The session is rewritten and its array is left alone. *)
Lemma log_ok_set userId w w' g rs st st' :
  log_ok userId w g →
  userStates w !! userId = Some st →
  userStates w' = <[userId := st']> (userStates w) →
  episodeArrays w' = episodeArrays w →
  episodes st' = episodes st →
  (∀ arr, loop_progress st arr g → loop_progress st' arr (count_answer rs g)) →
  log_ok userId w' (count_answer rs g).
Proof.
  intros Hlog Hst Hu Ha He Hp Hf st'' l.
  rewrite Hu, lookup_insert_eq, Ha. intros [= <-] El.
  simpl in Hf. apply orb_false_elim in Hf as [Hf _].
  apply Hp, Hlog; [done|done|congruence].
Qed.

(** Nothing is written and nothing is taken. *)
Lemma log_ok_same userId w g rs :
  log_ok userId w g → title_taken rs = false → link_taken rs = false →
  log_ok userId w (count_answer rs g).
Proof.
  intros Hlog Ht Hl Hf st l Hst El.
  simpl in Hf. apply orb_false_elim in Hf as [Hf _].
  apply (loop_progress_log st _ g); [simpl; by rewrite Ht|simpl; by rewrite Hl|].
  by apply Hlog.
Qed.

Lemma handle_update_log_ok userId env u w w' rs g :
  world_ok w → arrays_apart w → log_ok userId w g →
  handle_update env u w = Done w' rs →
  log_ok userId w' (log_step userId u rs g).
Proof.
  intros [Hw _] Ha Hlog H.
  destruct (decide (sender u = userId)) as [Hs|Hs].
  2:{ rewrite log_step_other by done.
      destruct Ha as (_ & Hdom & _ & Hsep).
      destruct (handle_update_footprint _ _ _ _ _ H) as (_ & Hfe & _).
      intros Hf st l Hst El.
      rewrite (handle_update_other _ _ _ _ _ userId H) in Hst by done.
      unfold deref. rewrite Hfe; [by apply Hlog|by eapply Hdom|].
      intros su Hsu E. apply Hs. by eapply Hsep. }
  destruct u as [v m|v data]; simpl in Hs; subst v.
  2:{ rewrite log_step_continues by done. simpl in H.
      unfold on_callback_query in H.
      repeat case_match; simplify_eq; by apply log_ok_same. }
  simpl in H.
  destruct (is_start_command m) eqn:Hstart.
  { rewrite log_step_continues
      by (try apply restarts_message; unfold opens_session; by rewrite ?Hstart).
    simplify_eq. by apply log_ok_same. }
  destruct (hears "🎬 Add Movie" m) eqn:Hmovie.
  { unfold hears_add_movie, alloc in H. simplify_eq/=.
    unfold log_step. simpl. unfold opens_session.
    rewrite Hstart, Hmovie, bool_decide_eq_true_2 by done. simpl.
    intros _ st l. simpl. rewrite lookup_insert_eq. by intros [= <-]. }
  destruct (hears "📺 Add Web Series" m) eqn:Hseries.
  { unfold hears_add_series, alloc in H. simplify_eq/=.
    unfold log_step. simpl. unfold opens_session.
    rewrite Hstart, Hmovie, Hseries, bool_decide_eq_true_2 by done. simpl.
    intros _ st l. simpl. rewrite lookup_insert_eq. intros [= <-] [= <-].
    unfold deref. by rewrite lookup_insert_eq. }
  assert (log_step userId (MessageUpdate userId m) rs g = count_answer rs g)
    as ->.
  { apply log_step_continues; [done|]. apply restarts_message.
    unfold opens_session. by rewrite Hmovie, Hseries, andb_false_r. }
  destruct (hears "📋 View Content" m).
  { unfold hears_view_content in H.
    repeat case_match; simplify_eq; by apply log_ok_same. }
  destruct (hears "✏️ Edit Content" m).
  { unfold hears_edit_content in H.
    repeat case_match; simplify_eq; by apply log_ok_same. }
  unfold on_message in H.
  destruct (userStates w !! userId) as [st|] eqn:Hst;
    [|simplify_eq; by apply log_ok_same].
  pose proof (Hw userId st Hst) as Hsok.
  destruct (step st) eqn:Hstep.
  - (* title *)
    unfold case_title in H.
    destruct (truthy_text m) as [t|] eqn:Ht; simplify_eq;
      [|by apply log_ok_same].
    eapply (log_ok_set userId w _ g); [done|done|done|done|done|].
    intros arr. unfold loop_progress. simpl. by rewrite Hstep.
  - (* thumbnail *)
    unfold case_thumbnail in H.
    repeat case_match; simplify_eq; try (by apply log_ok_same).
    all: eapply (log_ok_set userId w _ g); [done|done|done|done|done|].
    all: intros arr; unfold loop_progress; simpl; by rewrite Hstep.
  - (* movie_links *)
    unfold case_movie_links in H.
    repeat case_match; simplify_eq/=; try (by apply log_ok_same).
    + intros _ st' l. simpl. by rewrite lookup_delete_eq.
    + eapply (log_ok_set userId w _ g); [done|done|done|done|done|].
      intros arr. unfold loop_progress. simpl. by rewrite Hstep.
  - (* episode_count *)
    unfold case_episode_count in H.
    repeat case_match; simplify_eq; try (by apply log_ok_same).
    eapply (log_ok_set userId w _ g); [done|done|done|done|done|].
    intros arr. unfold loop_progress. simpl. rewrite Hstep.
    intros (-> & Ht & Hl). exists 1. split; [done|]. split; [lia|].
    intros n _ Hn. split_and!; [lia|apply numbered_nil|lia|lia].
  - (* episode_title *)
    unfold case_episode_title in H.
    repeat case_match; simplify_eq; try (by apply log_ok_same).
    eapply (log_ok_set userId w _ g); [done|done|done|done|done|].
    intros arr. unfold loop_progress. simpl. rewrite Hstep.
    intros (c & Hc & Hcb & Hn). exists c. split; [done|]. split; [done|].
    intros n En Hnb. destruct (Hn n En Hnb) as (? & ? & ? & ?).
    split_and!; [done|done|lia|lia].
  - (* episode_link *)
    unfold case_episode_link in H. unfold state_ok in Hsok.
    destruct (type st) eqn:Hty; [naive_solver congruence|].
    destruct Hsok as (_ & [l Hl]).
    destruct (truthy_text m) as [t|] eqn:Ht;
      [|simplify_eq; by apply log_ok_same].
    rewrite Hl in H. simpl in H.
    destruct (JS.ge (JS.to_number (currentEpisode st))
                (JS.to_number (episodeCount st))) eqn:Hge.
    + destruct (save _ _ _); simplify_eq.
      * intros _ st' l'. simpl. by rewrite lookup_delete_eq.
      * intros Hf. simpl in Hf. by rewrite orb_true_r in Hf.
    + simplify_eq. intros Hf st' l'. simpl.
      rewrite lookup_insert_eq. intros [= <-]. simpl. intros [= <-].
      simpl in Hf. apply orb_false_elim in Hf as [Hf _].
      pose proof (Hlog Hf st l Hst Hl) as Hloop.
      unfold loop_progress in *. rewrite Hstep in Hloop. simpl.
      destruct Hloop as (c & Hc & Hcb & Hn).
      rewrite Hc in Hge |- *.
      change (JS.to_number (Some (JS.Fin c))) with (JS.Fin c) in Hge |- *.
      destruct (succ_counter c Hcb) as (c' & Hsucc & Hcb' & Hc').
      exists c'. split; [by rewrite Hsucc|]. split; [done|].
      intros n En Hnb. destruct (Hn n En Hnb) as (Hle & Hnum & Htl & Hlk).
      rewrite En in Hge. simpl in Hge. apply Z.leb_gt in Hge.
      rewrite Hc' by lia. rewrite deref_push.
      replace (c + 1 - 1) with c by lia.
      split_and!; [lia| |lia|lia].
      by apply numbered_snoc; [lia|..].
Qed.

Lemma log_ok_initial userId : log_ok userId initial_world new_log.
Proof. intros _ st l. simpl. by rewrite lookup_empty. Qed.

Lemma run_log_ok userId evs : ∀ w w' g,
  world_ok w → arrays_apart w → log_ok userId w g → run w evs = Some w' →
  log_ok userId w' (loop_log userId g w evs).
Proof.
  induction evs as [|[env u] evs IH]; intros w w' g Hw Ha Hlog; simpl.
  - by intros [= <-].
  - destruct (handle_update env u w) as [w1 rs|] eqn:Hu; [|done].
    apply IH.
    + by eapply handle_update_world_ok.
    + by eapply handle_update_arrays_apart.
    + by eapply handle_update_log_ok.
Qed.

Lemma loop_log_snoc userId evs env u : ∀ g w w',
  run w evs = Some w' →
  loop_log userId g w (evs ++ [(env, u)])
  = match handle_update env u w' with
    | Done _ rs => log_step userId u rs (loop_log userId g w evs)
    | Throws => loop_log userId g w evs
    end.
Proof.
  induction evs as [|[env0 u0] evs IH]; intros g w w'; simpl.
  - intros [= <-]. by destruct (handle_update env u w).
  - destruct (handle_update env0 u0 w) as [w1 rs|]; [|done]. apply IH.
Qed.

(** The update that saves the series of a session at [episode_link] is no
    menu entry and is answered with the number of episodes. *)
Lemma series_persisted_answer env userId m w w' rs st :
  handle_update env (MessageUpdate userId m) w = Done w' rs →
  contents w' ≠ contents w → userStates w !! userId = Some st →
  step st = step_episode_link →
  opens_session m = false ∧ ∃ t k, rs = [SeriesAdded t k].
Proof.
  intros H Hc Hst Hstep. unfold opens_session. revert Hc.
  split_handler; intros Hc; try done; eauto.
Qed.

(** C1, as stated, fails: the count ["0"] is accepted, and the link of the
    first episode persists a record with one episode from a session whose
    [episodeCount] is 0. *)
Lemma series_record_with_count_zero :
  run initial_world series_zero_to_link = Some (world_after series_zero_to_link)
  ∧ episodeCount <$> userStates (world_after series_zero_to_link) !! 7
    = Some (Some (JS.Fin 0))
  ∧ contents (world_after series_zero_to_link) !! 0%N = None
  ∧ (∃ w', handle_update answers (MessageUpdate 7 (text_message "linkA"))
             (world_after series_zero_to_link)
           = Done w' [SeriesAdded (Some "S1"%string) 1]
           ∧ contents w' !! 0%N = Some one_episode_series)
  ∧ Z.of_nat (length (doc_episodes one_episode_series)) ≠ 0.
Proof.
  split_and!; try (vm_compute; reflexivity); [|done].
  eexists. split; vm_compute; reflexivity.
Qed.

(** C1, amended: take a session in which no insert of the series has
    failed since it was opened, and whose [episodeCount] is a positive
    integer [n].  The record that an update persists from it is a series
    with exactly [n] episodes, numbered [1..n] in this order; and with that
    update the session has taken [n] episode titles and [n] episode links:
    the loop [episode_title], [episode_link] has run [n] times. *)
Theorem series_record_episodes evs w env userId m w' rs st n id d :
  run initial_world evs = Some w →
  insert_failed (loop_log userId new_log initial_world evs) = false →
  userStates w !! userId = Some st →
  episodeCount st = Some (JS.Fin n) → 1 ≤ n →
  handle_update env (MessageUpdate userId m) w = Done w' rs →
  contents w !! id = None → contents w' !! id = Some d →
  doc_type d = webseries
  ∧ Z.of_nat (length (doc_episodes d)) = n
  ∧ numbered (doc_episodes d) n
  ∧ titles (loop_log userId new_log initial_world
              (evs ++ [(env, MessageUpdate userId m)])) = n
  ∧ links (loop_log userId new_log initial_world
             (evs ++ [(env, MessageUpdate userId m)])) = n.
Proof.
  intros Hrun Hf Hst Hn Hpos Hu Hnone Hsome.
  pose proof (run_world_ok _ _ _ world_ok_initial Hrun) as Hw.
  pose proof (run_arrays_apart evs _ _ arrays_apart_initial Hrun) as Ha.
  pose proof (run_log_ok userId evs _ _ _ world_ok_initial
                arrays_apart_initial (log_ok_initial userId) Hrun) as Hlog.
  destruct (persisted_at_persist_point _ _ _ _ _ _ _ Hu Hnone Hsome)
    as (? & ? & st' & [= <- <-] & Hst' & Hp).
  rewrite Hst in Hst'. injection Hst' as <-.
  pose proof (proj1 Hw userId st Hst) as Hsok.
  unfold persist_point in Hp. unfold state_ok in Hsok.
  destruct (step st) eqn:Hstep; try done.
  { destruct (type st); [|naive_solver]. naive_solver congruence. }
  destruct (type st) eqn:Hty; [naive_solver congruence|].
  destruct Hsok as [_ [l Hl]]. rewrite Hl in Hp.
  pose proof (Hlog Hf st l Hst Hl) as Hloop. unfold loop_progress in Hloop.
  rewrite Hstep in Hloop. destruct Hloop as (c & Hc & Hcb & Hcount).
  destruct (truthy_text m) as [t|]; [|done].
  rewrite Hc, Hn in Hp. simpl in Hp.
  destruct (Z.leb_spec n c) as [Hle|]; [|done]. simplify_eq. simpl.
  destruct (Hcount n Hn) as (Hcn & Hnum & Htl & Hlk); [lia|].
  assert (c = n) as -> by lia.
  assert (numbered
            (deref (episodeArrays w) l
             ++ [{| episodeNumber := Some (JS.Fin n);
                    ep_title := currentEpisodeTitle st;
                    streamingLink := t |}]) n) as Hall
    by by apply numbered_snoc.
  assert (contents w' ≠ contents w) as Hchg by congruence.
  destruct (series_persisted_answer _ _ _ _ _ _ _ Hu Hchg Hst Hstep)
    as (Hopen & ? & ? & ->).
  rewrite (loop_log_snoc userId evs env _ new_log initial_world w Hrun), Hu.
  rewrite log_step_continues by (try apply restarts_message; done).
  simpl. split_and!; [done| |done|lia|lia].
  by apply numbered_length; [lia|].
Qed.

Lemma series_record_episodes_witness :
  run initial_world series_beside_failure
  = Some (world_after series_beside_failure)
  ∧ insert_failed (loop_log 7 new_log initial_world series_beside_failure)
    = false
  ∧ userStates (world_after series_beside_failure) !! 7
    = Some series_at_second_link
  ∧ episodeCount series_at_second_link = Some (JS.Fin 2)
  ∧ 1 ≤ 2
  ∧ handle_update answers (MessageUpdate 7 (text_message "linkB"))
      (world_after series_beside_failure)
    = Done (world_after (series_beside_failure ++ [says 7 "linkB"]))
           [SeriesAdded (Some "S1"%string) 2]
  ∧ contents (world_after series_beside_failure) !! 0%N = None
  ∧ contents (world_after (series_beside_failure ++ [says 7 "linkB"])) !! 0%N
    = Some two_episode_series
  ∧ doc_type two_episode_series = webseries
  ∧ Z.of_nat (length (doc_episodes two_episode_series)) = 2
  ∧ numbered (doc_episodes two_episode_series) 2
  ∧ titles (loop_log 7 new_log initial_world
              (series_beside_failure
               ++ [(answers, MessageUpdate 7 (text_message "linkB"))])) = 2
  ∧ links (loop_log 7 new_log initial_world
             (series_beside_failure
              ++ [(answers, MessageUpdate 7 (text_message "linkB"))])) = 2.
Proof.
  assert (run initial_world series_beside_failure
          = Some (world_after series_beside_failure))
    as Hrun by (vm_compute; reflexivity).
  assert (insert_failed (loop_log 7 new_log initial_world series_beside_failure)
          = false) as Hf by (vm_compute; reflexivity).
  assert (userStates (world_after series_beside_failure) !! 7
          = Some series_at_second_link) as Hst by (vm_compute; reflexivity).
  assert (handle_update answers (MessageUpdate 7 (text_message "linkB"))
            (world_after series_beside_failure)
          = Done (world_after (series_beside_failure ++ [says 7 "linkB"]))
                 [SeriesAdded (Some "S1"%string) 2])
    as Hu by (vm_compute; reflexivity).
  assert (contents (world_after series_beside_failure) !! 0%N = None)
    as Hnone by (vm_compute; reflexivity).
  assert (contents (world_after (series_beside_failure ++ [says 7 "linkB"]))
            !! 0%N = Some two_episode_series)
    as Hsome by (vm_compute; reflexivity).
  assert (1 ≤ 2) as Hpos by lia.
  split_and!; [exact Hrun|exact Hf|exact Hst|reflexivity|exact Hpos|exact Hu
              |exact Hnone|exact Hsome|..];
    apply (series_record_episodes series_beside_failure
             (world_after series_beside_failure) answers 7
             (text_message "linkB")
             (world_after (series_beside_failure ++ [says 7 "linkB"]))
             [SeriesAdded (Some "S1"%string) 2] series_at_second_link 2 0%N
             two_episode_series Hrun Hf Hst eq_refl Hpos Hu Hnone Hsome).
Defined.
